(* ===== verification/_CoqProject ===== *)
-Q . S2P
Prelude.v
JsObject.v
Registry.v
Vue.v
Index.v
Vue2.v
Vue2Inv.v
Vue2Index.v
Loader.v
LoaderSpec.v
LoaderV2.v
