(* ===== verification/Prelude.v ===== *)
(** * A verification development of [src/src/components/index.js]

    ** The program

    [src/src/components/index.js] is the entry module of the
    intersection-scroller component library.  Its twelve lines do four
    things, in this order:

    - lines 1-2 import the host framework ([import Vue from "vue"]) and
      the single-file component ([import IntersectionScroller from
      "./intersection-scroller.vue"]);
    - lines 4-6 build an object literal [Components] with one shorthand
      property, [IntersectionScroller];
    - lines 8-10 enumerate its own keys with [Object.keys] and, through
      [Array.prototype.forEach], call the host's global registration API
      [Vue.component(name, Components[name])] once per key;
    - line 12 exports the very same object as the module's default export.

    The module has no state of its own.  It interacts with three things
    it does not own: the ECMAScript runtime (object literals, property
    enumeration order, [forEach], exceptions), the host framework's
    process-wide component registry (written by [Vue.component]), and the
    ES module loader (which evaluates [vue] and the [.vue] component
    before the body, and evaluates the body at most once).

    ** Files, in dependency order

    - [Prelude] (this file): the [outcome] type of ECMAScript completions
      (a normal result or a thrown error, the state surviving in both), a
      small state-and-exception monad [comp] with its notation in
      [shim_scope], the model [for_each] of [Array.prototype.forEach],
      [comp_rel] (a preorder between the state before and the state after
      a computation, composed along [bind] by the tactic
      [comp_rel_step]), Hoare triples [hoare] on [comp] with their
      sequencing, [if], consequence and loop rules (normal and thrown
      completions each get a postcondition), the hint database [shim],
      the tactic
      [destruct_unions] (case analysis on optional lookups joined by [∪]),
      the list lemmas the components share, and [rtc_inv] / [rtc_inv_id]
      (a property kept by every step holds along every sequence of steps;
      steps that change nothing compose to nothing).
    - [JsObject]: ECMAScript values and ordinary objects.  An object is the
      list of its own data properties in creation order;
      [create_data_property] replaces a value in place or appends;
      [is_array_index] is the specification's array-index test on
      property keys (canonical decimal numerals below 2^32 - 1);
      [own_property_keys] is OrdinaryOwnPropertyKeys (array indices in
      ascending numeric order, then the other string keys in creation
      order), which [Object.keys] returns; the heap is a [gmap] from
      locations to objects.
    - [Registry]: the host's component registry as an interface, the
      [ComponentRegistry] type class (register, lookup, and the
      overwrite laws the spec states), implemented by the [gmap] the
      spec describes, and the lookup after a sequence of registrations.
    - [Vue]: the interface [JsHost] that the module body is written
      against (the heap and the imported [Vue]'s [component] method), and
      the spec's host [rt_state R]: a heap and a registry of the
      interface, with [Vue.component(id, definition)] as the spec states
      it (a falsy [definition] turns the call into a lookup, a truthy one
      registers it and returns it).
    - [Index]: the module body itself: [Components], the arrow callback
      [register_callback], the loop [register_all], and [index_body] that
      runs lines 4-12, all generic in the host.
    - [Vue2]: Vue 2's [Vue.component] as Vue's sources write it, as a
      second host [v2_state]: development-mode [validateComponentName]
      (ASCII pattern, built-in and reserved HTML/SVG tags) printing
      warnings, [definition.name = definition.name || id] on plain option
      objects, and [Vue.extend] with its per-options constructor cache
      [_Ctor] and [cid] counter; the console only grows.
    - [Vue2Inv]: the invariant [v2_inv] of the Vue 2 host (the registry
      holds no plain options object, every [_Ctor] cache holds
      constructors) and its Hoare triples for each step of [Vue.extend]
      and [Vue.component].
    - [Vue2Index]: the definitions of [Index] run on the Vue 2 host
      ([index_body_v2], [register_all_v2], [register_callback_v2]).
    - [Loader]: the ES module instances of the three modules, their
      evaluation status (absent when not evaluated yet, [Evaluating],
      [Evaluated], [Errored]), the dependency-first evaluation [evaluate]
      with fuel and its loop over the requested modules
      [evaluate_imports], the requests of [index.js] ([index_requests],
      lines 1-2), the module table [program_modules] whose two external
      bodies are parameters, and imports as a step relation
      [import_step].  All of it is generic in the host, and so are the
      theorems of this file.
    - [LoaderSpec]: the loader on the spec's host, with the
      reachable-state invariant [loader_inv] and witnesses at the map
      registry.
    - [LoaderV2]: the loader on Vue 2, with the reachable-state
      invariant [v2_loader_inv] (the component's export stays a fresh
      options object until [index.js] registers a constructor made from
      it) and witnesses with a host module and a component module of
      our own.

    ** What the theorems show

    - JsObject: an object literal's last definition of a key wins and
      its own keys are its property names in source order; [Object.keys]
      completes without touching the heap and lists each own key once,
      array indices first in ascending order, the other keys in creation
      order.
    - Registry: the map satisfies the interface laws; a lookup after a
      sequence of registrations finds the last one of the name.
    - Index, on the spec's host: after the body runs, the registry maps
      ["IntersectionScroller"] to the imported object itself (identity:
      the same heap location); the body never throws; for an arbitrary
      object the loop registers exactly its own keys with truthy values
      to those values; a missing (undefined) import is silently not
      registered.
    - Vue2 and Vue2Index, on Vue 2: the registry holds a fresh constructor
      made by [Vue.extend], not the import (identity fails); the options
      object shared with the default export gets the [name]
      ["IntersectionScroller"]; a second run of the loop changes nothing
      at all (the [_Ctor] cache); no warning is printed for the
      component's name, while a built-in or reserved tag as key prints
      Vue's warning; every [Vue.component] call and the whole body keep
      the invariant that no plain options object is registered.  Read
      back through [Sub.extendOptions] ([registered_options]), the Vue 2
      registry refines the spec's: from agreeing registries the body
      leaves agreeing registries and the same export.  An export that is
      not a plain options object (a constructor, a primitive,
      [undefined]) is registered unchanged when truthy and skipped when
      falsy, with no [Vue.extend], no [cid] and no warning.
    - Loader, on every host: in the states the program reaches by
      imports no module is ever left [Evaluating] and a recorded export
      or error never changes; once [index.js] is evaluated in a reachable
      state no sequence of imports changes anything, registry included; a
      module that threw is [Errored] and every later import rethrows the
      same error; a throwing component module makes [index.js] itself
      [Errored] and leaves exactly the host state the component module
      left, so the body of [index.js] never runs.
    - LoaderSpec and LoaderV2: with fuel 2 or more, importing [index.js] from a settled
      state terminates with [index.js] evaluated; a second import returns the cached
      export and leaves the state unchanged; in every state reachable by
      imports, once [index.js] is evaluated the component module's export
      (when truthy) is the registered ["IntersectionScroller"], and from
      every reachable state one more import gets there (liveness).  The
      external modules are assumed
      to complete normally (except in the error theorems) and not to
      register that name themselves.  On Vue 2, loading [index.js]
      registers a new constructor made from the component module's
      export, and in every state reachable by imports no plain options
      object is registered (an invariant of [evaluate] by induction on
      the fuel and the import list, then on the reachability relation);
      from every reachable state one more import of [index.js] reaches a
      state where ["IntersectionScroller"] is a constructor whose
      [extendOptions] is the component module's export (liveness),
      assuming the host module only allocates and the component module
      exports a fresh options object.

    ** Bounds and fuel

    Array indices are bounded by 2^32 - 1, as in the specification of
    ECMAScript; the bound is a constant of [JsObject] kept as [N].  The
    loader's fuel bounds the depth of recursive module evaluation; the
    import graph of the three modules has depth 2 (the two imported
    modules are modelled without imports of their own), so fuel 2 is
    enough for a first import of [index.js]
    ([LoaderSpec.load_index_terminates], [LoaderV2.load_index_v2]), and
    fuel 1 is not ([Loader.evaluate_index_fuel_1]).  Vue's [cid] counter is an integer that
    grows by one per constructor; it stays far below 2^53, where
    JavaScript numbers lose integers, for any realistic run, and is kept
    as [Z].

    ** Not modelled

    - The single-file component [intersection-scroller.vue] is not part
      of the sources: it is an opaque object in the heap (its location),
      produced by its module's evaluation.
    - Of Vue 2, only what [Vue.component] does for components: the other
      asset types (directives, filters), the option merging, prototype
      and static members that [Vue.extend] sets on the constructor beyond
      [cid] and [extendOptions], and the rendering that uses the
      registry.  The Unicode ranges of the name pattern are approximated
      by accepting every byte of a non-ASCII character after the first
      position; non-string names given to [Vue.extend] are not validated.
    - Property lookup goes through own properties only: the prototype
      chain is not modelled, and the code reads only keys that
      [Object.keys] returned, which are own keys (proved).
    - Numbers are modelled as integers ([Z]); floating point, NaN and
      symbols play no role in this module.
    - Module cycles are reported as a [ReferenceError] rather than by
      ECMAScript's strongly-connected-component algorithm; the graph of
      this program has no cycle.

    - The [(value, index, array)] arguments of [forEach] callbacks: the
      module's callback takes one argument, so they change nothing it
      observes.

    The twelve lines of [index.js] are modelled in full; what is left
    outside the model is the code of other packages that it calls, listed
    above, which this repository does not contain. *)

From stdpp Require Export base list gmap strings sorting.
From Stdlib Require Export Lia.

Declare Scope shim_scope.
Delimit Scope shim_scope with shim.

Create HintDb shim.

(** ** Completions

    An ECMAScript statement completes normally with a value or abruptly
    with a thrown error; the state (heap, registry) is kept in both cases,
    since effects performed before a [throw] are not undone. *)

Inductive js_error : Type :=
| TypeError (msg : string)
| ReferenceError (msg : string).

#[export] Instance js_error_eq_dec : EqDecision js_error.
Proof. solve_decision. Defined.

Inductive outcome (S A : Type) : Type :=
| Normal (a : A) (s : S)
| Abrupt (e : js_error) (s : S).
Arguments Normal {S A} a s.
Arguments Abrupt {S A} e s.

(** A computation over a state [S] returning [A]. *)
Definition comp (S A : Type) : Type := S -> outcome S A.

Definition ret {S A} (a : A) : comp S A := fun s => Normal a s.

Definition bind {S A B} (c : comp S A) (k : A -> comp S B) : comp S B :=
  fun s => match c s with
           | Normal a s' => k a s'
           | Abrupt e s' => Abrupt e s'
           end.

Notation "x <- c ;; k" := (bind c (fun x => k))
  (at level 100, c at next level, right associativity) : shim_scope.
Notation "c ;; k" := (bind c (fun _ => k))
  (at level 100, right associativity) : shim_scope.

Open Scope shim_scope.

(** The state a completion leaves, normal or abrupt. *)
Definition outcome_state {S A} (o : outcome S A) : S :=
  match o with Normal _ s => s | Abrupt _ s => s end.

(** A computation relates, by [rel], the state before it and the state it
    leaves, whether it completes normally or throws. *)
Definition comp_rel {S A} (rel : relation S) (c : comp S A) : Prop :=
  forall s, rel s (outcome_state (c s)).

(** [Array.prototype.forEach] on a dense array that the callback cannot
    modify (the arrays [Object.keys] returns are fresh): the callback runs
    on each element in index order, its result is discarded, and the first
    abrupt completion ends the loop and propagates. *)
Fixpoint for_each {S X} (f : X -> comp S unit) (l : list X) : comp S unit :=
  match l with
  | [] => ret tt
  | x :: l' => f x ;; for_each f l'
  end.

(** ** Shared lemmas *)

(** Filtering a list whose elements all pass, or all fail, the test. *)
Lemma filter_all_in {A} (P : A -> Prop) `{!forall x, Decision (P x)} (l : list A) :
  (forall x, x ∈ l -> P x) -> filter P l = l.
Proof.
  induction l as [|x l IH]; intros Hall; [done|].
  rewrite filter_cons_True by (apply Hall; left).
  f_equal. apply IH. intros y Hy. apply Hall. by right.
Qed.

Lemma filter_none_in {A} (P : A -> Prop) `{!forall x, Decision (P x)} (l : list A) :
  (forall x, x ∈ l -> ~ P x) -> filter P l = [].
Proof.
  induction l as [|x l IH]; intros Hnone; [done|].
  rewrite filter_cons_False by (apply Hnone; left).
  apply IH. intros y Hy. apply Hnone. by right.
Qed.

(** In a strongly sorted list, an earlier element is related to a later one. *)
Lemma StronglySorted_lookup {A} (R : relation A) (l : list A) i j a b :
  StronglySorted R l -> i < j -> l !! i = Some a -> l !! j = Some b -> R a b.
Proof.
  intros Hs. revert i j. induction Hs as [|x l Hs IH Hall]; intros i j Hij Ha Hb; [done|].
  destruct i as [|i], j as [|j]; simpl in *; [lia| |lia|].
  - simplify_eq. by eapply Forall_lookup_1.
  - apply (IH i j); [lia|done|done].
Qed.

(** A property kept by every step holds all along a sequence of steps. *)
Lemma rtc_inv {A} (R : relation A) (I : A -> Prop) x y :
  (forall a b, I a -> R a b -> I b) -> I x -> rtc R x y -> I y.
Proof. intros Hstep Hx Hxy. induction Hxy as [|a b c Hab _ IH]; [done|]. eauto. Qed.

(** Steps that change nothing from states satisfying a property that
    they keep: every sequence of them changes nothing. *)
Lemma rtc_inv_id {A} (R : relation A) (I : A -> Prop) x y :
  (forall a b, I a -> R a b -> b = a) -> I x -> rtc R x y -> y = x.
Proof.
  intros Hstep Hx Hxy. induction Hxy as [|a b c Hab _ IH]; [done|].
  pose proof (Hstep a b Hx Hab) as ->. by apply IH.
Qed.

(** [comp_rel] for a preorder composes along [bind]. *)
Section comp_rel.
  Context {S : Type} (rel : relation S) `{!PreOrder rel}.

Lemma comp_rel_ret {A} (a : A) : comp_rel rel (ret a).
  Proof. intros s. simpl. reflexivity. Qed.

Lemma comp_rel_bind {A B} (c : comp S A) (k : A -> comp S B) :
    comp_rel rel c -> (forall a, comp_rel rel (k a)) -> comp_rel rel (bind c k).
  Proof.
    intros Hc Hk s. specialize (Hc s). unfold bind.
    destruct (c s) as [a s'|e s']; simpl in *; [|done].
    etrans; [apply Hc|apply Hk].
  Qed.

Lemma comp_rel_if {A} (b : bool) (c1 c2 : comp S A) :
    comp_rel rel c1 -> comp_rel rel c2 -> comp_rel rel (if b then c1 else c2).
  Proof. by destruct b. Qed.
End comp_rel.

#[export] Hint Resolve NoDup_nil_2 : shim.
#[export] Hint Resolve comp_rel_ret comp_rel_if : shim.

(** Decompose a [comp_rel] goal along the structure of the computation. *)
Ltac comp_rel_step :=
  match goal with
  | |- comp_rel _ (bind _ _) => apply comp_rel_bind; [apply _| |intros ?]
  | |- comp_rel _ (if _ then _ else _) => apply comp_rel_if; [apply _| |]
  | |- comp_rel _ (ret _) => apply comp_rel_ret; apply _
  | |- comp_rel _ (match ?x with _ => _ end) => destruct x
  end.

(** ** Hoare triples

    [hoare P c Q E]: from a state satisfying [P], the computation [c]
    either completes normally with a value [a] in a state satisfying
    [Q a], or throws in a state satisfying [E].  An invariant [I] of [c]
    is [hoare I c (fun _ => I) I]. *)
Definition hoare {S A} (P : S -> Prop) (c : comp S A) (Q : A -> S -> Prop) (E : S -> Prop)
    : Prop :=
  forall s, P s -> match c s with Normal a s' => Q a s' | Abrupt _ s' => E s' end.

Section hoare.
  Context {S : Type}.
  Implicit Types (P E : S -> Prop).

Lemma hoare_ret {A} P (Q : A -> S -> Prop) E a :
    (forall s, P s -> Q a s) -> hoare P (ret a) Q E.
  Proof. intros H s. apply H. Qed.

Lemma hoare_bind {A B} P (R : A -> S -> Prop) (Q : B -> S -> Prop) E c k :
    hoare P c R E -> (forall a, hoare (R a) (k a) Q E) -> hoare P (bind c k) Q E.
  Proof.
    intros Hc Hk s Hs. specialize (Hc s Hs). unfold bind.
    destruct (c s) as [a s'|e s']; [by apply Hk|done].
  Qed.

Lemma hoare_if {A} P (Q : A -> S -> Prop) E (b : bool) c1 c2 :
    (b = true -> hoare P c1 Q E) -> (b = false -> hoare P c2 Q E) ->
    hoare P (if b then c1 else c2) Q E.
  Proof. destruct b; auto. Qed.

Lemma hoare_conseq {A} P P' (Q Q' : A -> S -> Prop) E E' c :
    hoare P c Q E -> (forall s, P' s -> P s) -> (forall a s, Q a s -> Q' a s) ->
    (forall s, E s -> E' s) -> hoare P' c Q' E'.
  Proof.
    intros Hc HP HQ HE s Hs. specialize (Hc s (HP s Hs)).
    destruct (c s); auto.
  Qed.

  (** An invariant of every callback is an invariant of the loop. *)
Lemma hoare_for_each {X} (I : S -> Prop) (f : X -> comp S unit) l :
    (forall x, hoare I (f x) (fun _ => I) I) -> hoare I (for_each f l) (fun _ => I) I.
  Proof.
    intros Hf. induction l as [|x l IH]; simpl; [by apply hoare_ret|].
    eapply hoare_bind; [apply Hf|intros []; apply IH].
  Qed.
End hoare.

(** Decompose a [hoare] goal along [bind], [ret] and [if]; the
    intermediate assertions of [bind] are left as evars to be fixed by
    the triples of the steps. *)
Ltac hoare_step :=
  match goal with
  | |- hoare _ (bind _ _) _ _ => eapply hoare_bind; [|intros ?]
  | |- hoare _ (ret _) _ _ => apply hoare_ret
  | |- hoare _ (if _ then _ else _) _ _ => apply hoare_if; intros ?
  end.

(** Case analysis on the optional lookups combined by [∪] (left-biased
    union of options) and on the [decide] tests in the goal, then close
    the cases by computation. *)
Ltac destruct_unions :=
  repeat match goal with
  | |- context [decide ?P] => destruct (decide P)
  | |- context [?a ∪ ?b] =>
      lazymatch type of a with
      | option _ =>
          first [ lazymatch a with Some _ => fail | None => fail | _ ∪ _ => fail
                  | _ => destruct a end
                | lazymatch b with Some _ => fail | None => fail | _ ∪ _ => fail
                  | _ => destruct b end ]
      end
  end; try done.
