(* ===== verification/JsObject.v ===== *)
(** * ECMAScript values, ordinary objects and [Object.keys]

    The parts of the ECMAScript runtime that [index.js] relies on: the
    object literal of lines 4-6 (CreateDataProperty on a fresh ordinary
    object), property reads [Components[name]] (own data properties), the
    key enumeration [Object.keys] of line 8 (OrdinaryOwnPropertyKeys, with
    its array-index ordering) and ToBoolean, which [Vue.component] applies
    to its second argument. *)

From S2P Require Import Prelude.
From Stdlib Require Import DecimalString DecimalN.

(** ** Values *)

(** Heap locations: object identity. *)
Abbreviation loc := positive (only parsing).

Inductive value : Type :=
| VUndefined
| VNull
| VBool (b : bool)
| VNum (z : Z)
| VStr (s : string)
| VObj (l : loc).

#[export] Instance value_eq_dec : EqDecision value.
Proof. solve_decision. Defined.

(** ToBoolean (ECMA-262 7.1.2), numbers restricted to integers. *)
Definition to_boolean (v : value) : bool :=
  match v with
  | VUndefined | VNull => false
  | VBool b => b
  | VNum z => negb (Z.eqb z 0)
  | VStr s => negb (String.eqb s "")
  | VObj _ => true
  end.

(** ** Ordinary objects

    An ordinary extensible object whose properties are all writable,
    enumerable and configurable data properties (what an object literal
    creates), as the list of its own properties in creation order. *)
Abbreviation jsobj := (list (string * value)) (only parsing).

Fixpoint get_own (o : list (string * value)) (k : string) : option value :=
  match o with
  | [] => None
  | (k', v) :: o' => if decide (k = k') then Some v else get_own o' k
  end.

(** CreateDataProperty (ECMA-262 7.3.5) through [[DefineOwnProperty]]: an
    existing property keeps its place in the creation order and gets the
    new value; a new property is appended. *)
Fixpoint create_data_property (o : list (string * value)) (k : string) (v : value)
    : list (string * value) :=
  match o with
  | [] => [(k, v)]
  | (k', v') :: o' =>
      if decide (k = k') then (k, v) :: o' else (k', v') :: create_data_property o' k v
  end.

(** An object literal [{ k1: v1, ..., kn: vn }] (shorthand [{ x }] is
    [{ x: x }]): a fresh empty object and one CreateDataProperty per
    property definition, left to right. *)
Definition literal_step (o : list (string * value)) (kv : string * value) :=
  create_data_property o kv.1 kv.2.

Definition object_literal (props : list (string * value)) : list (string * value) :=
  foldl literal_step [] props.

(** Own keys are unique. *)
Definition wf_obj (o : list (string * value)) : Prop := NoDup o.*1.

(** ** Array indices

    A property key [P] is an array index when [ToString(ToUint32(P))] is
    [P] and [ToUint32(P)] is not [2^32 - 1]: [P] is the canonical decimal
    numeral of an integer in [[0, 2^32 - 1)]. *)
Definition array_index_bound : N := 4294967295.

Definition N_to_string (n : N) : string := NilEmpty.string_of_uint (N.to_uint n).

Definition decimal_value (s : string) : option N :=
  N.of_uint <$> NilEmpty.uint_of_string s.

Definition array_index (s : string) : option N :=
  match decimal_value s with
  | Some n =>
      if (n <? array_index_bound)%N && String.eqb (N_to_string n) s then Some n else None
  | None => None
  end.

Definition is_array_index (s : string) : bool :=
  match array_index s with Some _ => true | None => false end.

(** The order of array indices: ascending numeric value. *)
Definition index_le (a b : string) : Prop :=
  (default 0 (array_index a) <= default 0 (array_index b))%N.

#[export] Instance index_le_dec : RelDecision index_le.
Proof. intros a b. unfold index_le. apply _. Defined.

(** OrdinaryOwnPropertyKeys (ECMA-262 10.1.11.1) restricted to string
    keys: the array indices in ascending numeric order, then the other
    keys in creation order.  [Object.keys] returns them (all properties of
    an object literal are enumerable). *)
Definition own_property_keys (o : list (string * value)) : list string :=
  merge_sort index_le (filter (fun k => is_array_index k = true) o.*1)
  ++ filter (fun k => is_array_index k = false) o.*1.

(** ** The heap *)

Abbreviation heap := (gmap positive (list (string * value))) (only parsing).

(** A fresh object is stored at a location not yet allocated. *)
Definition alloc (o : list (string * value)) (h : heap) : loc * heap :=
  let l := fresh (dom h) in (l, <[l := o]> h).

(** [Object.keys(v)] (ECMA-262 20.1.2.18): ToObject throws a TypeError on
    [undefined] and [null]; booleans and numbers have no own enumerable
    keys; a string's keys are the indices of its code units. *)
Definition Object_keys (v : value) : comp heap (list string) :=
  fun h =>
    match v with
    | VUndefined | VNull =>
        Abrupt (TypeError "Cannot convert undefined or null to object") h
    | VBool _ | VNum _ => Normal [] h
    | VStr s => Normal (map (fun i => N_to_string (N.of_nat i)) (seq 0 (String.length s))) h
    | VObj l => Normal (own_property_keys (default [] (h !! l))) h
    end.

(** [v[k]] on an object: its own property, [undefined] if absent (the
    prototype chain, and the wrapper objects of primitives, are not
    modelled); reading a property of [undefined]
    or [null] throws a TypeError. *)
Definition get_value (v : value) (k : string) : comp heap value :=
  fun h =>
    match v with
    | VUndefined | VNull => Abrupt (TypeError "Cannot read properties of undefined") h
    | VObj l => Normal (default VUndefined (h !! l ≫= fun o => get_own o k)) h
    | _ => Normal VUndefined h
    end.

(** ** Properties of ordinary objects *)

Lemma get_own_create_data_property o k v k' :
  get_own (create_data_property o k v) k' =
  if decide (k' = k) then Some v else get_own o k'.
Proof.
  induction o as [|[k0 v0] o IH]; simpl; [done|].
  destruct (decide (k = k0)) as [->|Hne]; simpl.
  - by destruct (decide (k' = k0)).
  - rewrite IH. by repeat case_decide; subst.
Qed.

(** CreateDataProperty keeps the creation order: a known key stays in
    place, a new key goes last. *)
Lemma keys_create_data_property o k v :
  (create_data_property o k v).*1 = if decide (k ∈ o.*1) then o.*1 else o.*1 ++ [k].
Proof.
  induction o as [|[k0 v0] o IH]; [done|].
  cbn [create_data_property]. rewrite fmap_cons. simpl fst.
  destruct (decide (k = k0)) as [->|Hne].
  - rewrite fmap_cons, decide_True by (by left). done.
  - rewrite fmap_cons, IH. simpl fst. destruct (decide (k ∈ o.*1)) as [Hin|Hin].
    + rewrite decide_True by (by right). done.
    + rewrite decide_False; [done|]. intros [?|?]%elem_of_cons; auto.
Qed.

(** CreateDataProperty preserves the uniqueness of own keys. *)
Lemma create_data_property_wf o k v :
  wf_obj o -> wf_obj (create_data_property o k v).
Proof.
  unfold wf_obj. rewrite keys_create_data_property. intros Hnd.
  case_decide as Hin; [done|].
  apply NoDup_app. split_and!; [done| |by apply NoDup_singleton].
  intros x Hx ->%list_elem_of_singleton. done.
Qed.
#[export] Hint Resolve create_data_property_wf : shim.

Lemma object_literal_foldl_keys o ps :
  NoDup (o.*1 ++ ps.*1) -> (foldl literal_step o ps).*1 = o.*1 ++ ps.*1.
Proof.
  revert o. induction ps as [|[k v] ps IH]; intros o Hnd; simpl; [by rewrite app_nil_r|].
  rewrite fmap_cons in Hnd. simpl in Hnd.
  assert (k ∉ o.*1) as Hk.
  { intros Hin. apply NoDup_app in Hnd as (_ & Hdis & _).
    apply (Hdis k); [done|left]. }
  rewrite IH; unfold literal_step; simpl; rewrite keys_create_data_property, decide_False by done.
  - by rewrite <- app_assoc.
  - by rewrite <- app_assoc.
Qed.

(** C11: With distinct keys, the literal's own keys are its property names in
    source order. *)
Lemma object_literal_keys ps :
  NoDup ps.*1 -> (object_literal ps).*1 = ps.*1.
Proof. intros Hnd. by apply (object_literal_foldl_keys []). Qed.

Lemma get_own_cons k0 v0 o k :
  get_own ((k0, v0) :: o) k = if decide (k = k0) then Some v0 else get_own o k.
Proof. done. Qed.

Lemma get_own_app l1 l2 k : get_own (l1 ++ l2) k = get_own l1 k ∪ get_own l2 k.
Proof.
  induction l1 as [|[k0 v0] l1 IH]; [simpl; destruct_unions|].
  rewrite <- app_comm_cons, !get_own_cons, IH.
  destruct_unions.
Qed.

Lemma object_literal_foldl_get o ps k :
  get_own (foldl literal_step o ps) k = get_own (reverse ps) k ∪ get_own o k.
Proof.
  revert o. induction ps as [|[k0 v0] ps IH]; intros o; simpl.
  - destruct_unions.
  - rewrite IH, reverse_cons, get_own_app, get_own_cons.
    unfold literal_step. simpl. rewrite get_own_create_data_property.
    destruct_unions.
Qed.

(** C10: In an object literal, the last definition of a key gives its value. *)
Lemma get_own_object_literal ps k :
  get_own (object_literal ps) k = get_own (reverse ps) k.
Proof.
  unfold object_literal. rewrite object_literal_foldl_get. simpl.
  destruct_unions.
Qed.

Lemma get_own_elem_of l k v : get_own l k = Some v -> (k, v) ∈ l.
Proof.
  induction l as [|[k0 v0] l IH]; [done|]. rewrite get_own_cons.
  case_decide; intros Hk; simplify_eq; [left|right; auto].
Qed.

Lemma get_own_None l k : get_own l k = None <-> k ∉ l.*1.
Proof.
  induction l as [|[k0 v0] l IH]; [split; [intros _; apply not_elem_of_nil|done]|].
  rewrite get_own_cons, fmap_cons, elem_of_cons. simpl.
  case_decide; naive_solver.
Qed.

(** Lookup in a filtered graph [(k, f k)] of a list of keys. *)
Lemma get_own_graph (f : string -> value) (P : string * value -> Prop)
    `{!forall kv, Decision (P kv)} ks k :
  get_own (filter P ((fun k => (k, f k)) <$> ks)) k
  = if decide (k ∈ ks /\ P (k, f k)) then Some (f k) else None.
Proof.
  induction ks as [|k0 ks IH].
  - rewrite decide_False; [done|]. intros [?%not_elem_of_nil _]; done.
  - rewrite fmap_cons, filter_cons.
    destruct (decide (P (k0, f k0))) as [HP|HP]; rewrite ?get_own_cons, IH;
      repeat case_decide; subst; rewrite ?elem_of_cons in *; naive_solver.
Qed.

(** Distinct keys have distinct indices. *)
Lemma array_index_inj a b n :
  array_index a = Some n -> array_index b = Some n -> a = b.
Proof.
  unfold array_index.
  destruct (decimal_value a) as [m|], (decimal_value b) as [m'|]; try done.
  destruct (String.eqb_spec (N_to_string m) a), (String.eqb_spec (N_to_string m') b);
    rewrite ?andb_false_r; try done.
  destruct (m <? array_index_bound)%N, (m' <? array_index_bound)%N; simpl; congruence.
Qed.

(** ** Key enumeration order *)

Lemma index_le_total : Total index_le.
Proof. intros a b. unfold index_le. lia. Qed.

Lemma index_le_trans : Transitive index_le.
Proof. intros a b c. unfold index_le. lia. Qed.

Lemma filter_false_complement (l : list string) :
  filter (fun k => is_array_index k = false) l
  = filter (fun k => ~ (is_array_index k = true)) l.
Proof. apply list_filter_iff. intros k. destruct (is_array_index k); naive_solver. Qed.

(** [Object.keys] lists every own key once: its result is a permutation of
    the keys in creation order. *)
Theorem own_property_keys_perm o : own_property_keys o ≡ₚ o.*1.
Proof.
  unfold own_property_keys. rewrite merge_sort_Permutation, filter_false_complement.
  apply filter_app_complement.
Qed.

Lemma own_property_keys_nodup o : wf_obj o -> NoDup (own_property_keys o).
Proof. unfold wf_obj. intros Hnd. by rewrite own_property_keys_perm. Qed.

Lemma own_property_keys_elem_of o k : k ∈ own_property_keys o <-> k ∈ o.*1.
Proof. by rewrite own_property_keys_perm. Qed.

(** C9: Without array-index keys, [Object.keys] follows the creation order. *)
Theorem own_property_keys_no_index o :
  (forall k, k ∈ o.*1 -> is_array_index k = false) -> own_property_keys o = o.*1.
Proof.
  intros Hnone. unfold own_property_keys.
  rewrite (filter_none_in _ o.*1), filter_all_in; [done|done|].
  intros k Hk. rewrite (Hnone k Hk). done.
Qed.

(** C7: The array-index keys come first, in strictly ascending numeric order:
    whenever a key listed by [Object.keys] is an array index, every key
    before it is an array index with a smaller value. *)
Theorem own_property_keys_order o i j a b :
  wf_obj o -> i < j ->
  own_property_keys o !! i = Some a -> own_property_keys o !! j = Some b ->
  is_array_index b = true ->
  exists m n, array_index a = Some m /\ array_index b = Some n /\ (m < n)%N.
Proof.
  intros Hwf Hij Ha Hb Hidx. pose proof (own_property_keys_nodup o Hwf) as Hnd.
  unfold own_property_keys in *.
  set (P := merge_sort index_le _) in *.
  destruct (decide (j < length P)) as [HjP|HjP].
  - rewrite lookup_app_l in Ha, Hb by lia.
    assert (forall k, k ∈ P -> is_array_index k = true) as HP.
    { intros k Hk. unfold P in Hk. rewrite merge_sort_Permutation in Hk.
      by apply list_elem_of_filter in Hk as [? _]. }
    pose proof (HP a (list_elem_of_lookup_2 _ _ _ Ha)) as Ha'.
    pose proof (HP b (list_elem_of_lookup_2 _ _ _ Hb)) as Hb'.
    unfold is_array_index in Ha', Hb'.
    destruct (array_index a) as [m|] eqn:Hm; [|done].
    destruct (array_index b) as [n|] eqn:Hn; [|done].
    exists m, n. split_and!; [done|done|].
    assert (index_le a b) as Hle.
    { apply (StronglySorted_lookup _ P i j); [|done|done|done].
      apply StronglySorted_merge_sort; [apply index_le_trans|apply index_le_total]. }
    unfold index_le in Hle. rewrite Hm, Hn in Hle. simpl in Hle.
    assert (a <> b) as Hab.
    { intros ->. apply NoDup_app in Hnd as [HndP _].
      pose proof (NoDup_lookup _ _ _ _ HndP Ha Hb). lia. }
    destruct (decide (m = n)) as [->|]; [|lia].
    by pose proof (array_index_inj _ _ _ Hm Hn).
  - rewrite lookup_app_r in Hb by lia.
    apply list_elem_of_lookup_2, list_elem_of_filter in Hb as [Hf _].
    by rewrite Hf in Hidx.
Qed.

(** C8: [Object.keys] on an object completes normally, leaves the heap alone,
    and lists each own key exactly once. *)
Theorem Object_keys_own_keys h l o :
  h !! l = Some o -> wf_obj o ->
  exists ks, Object_keys (VObj l) h = Normal ks h /\ ks ≡ₚ o.*1 /\ NoDup ks.
Proof.
  intros Hl Hwf. exists (own_property_keys o). unfold Object_keys. rewrite Hl.
  split_and!; [done|apply own_property_keys_perm|by apply own_property_keys_nodup].
Qed.

(** ** Witnesses *)

Definition sample_obj : list (string * value) := [("b", VNull); ("2", VNull); ("1", VNull)].

Lemma own_property_keys_order_witness :
  exists m n, array_index "1" = Some m /\ array_index "2" = Some n /\ (m < n)%N.
Proof.
  apply (own_property_keys_order sample_obj 0 1 "1" "2");
    [vm_compute; repeat constructor; set_solver|lia|reflexivity|reflexivity|reflexivity].
Defined.

Lemma Object_keys_own_keys_witness :
  exists ks, Object_keys (VObj 1) {[1%positive := sample_obj]} = Normal ks {[1%positive := sample_obj]}
    /\ ks ≡ₚ sample_obj.*1 /\ NoDup ks.
Proof.
  apply Object_keys_own_keys; [reflexivity|vm_compute; repeat constructor; set_solver].
Defined.

Lemma own_property_keys_no_index_witness :
  own_property_keys [("b", VNull); ("a", VNull)] = ["b"; "a"].
Proof.
  apply (own_property_keys_no_index [("b", VNull); ("a", VNull)]).
  intros k Hk. vm_compute in Hk.
  apply elem_of_cons in Hk as [->|Hk]; [reflexivity|].
  apply elem_of_cons in Hk as [->|Hk]; [reflexivity|]. by apply not_elem_of_nil in Hk.
Defined.

Lemma object_literal_keys_witness :
  (object_literal [("IntersectionScroller", VObj 7)]).*1 = ["IntersectionScroller"].
Proof.
  apply (object_literal_keys [("IntersectionScroller", VObj 7)]).
  vm_compute. repeat constructor. set_solver.
Defined.
