(* ===== verification/Registry.v ===== *)
(** * The host framework's component registry

    The process-wide mapping from component names to definitions that
    [Vue.component] writes (Vue 2 keeps it in [Vue.options.components]).
    The spec (sections 3 and 9) describes it as an injected dependency
    with a [register(name, definition)] capability, in which a later
    registration of a name overwrites the earlier one.  That contract is
    the type class [ComponentRegistry] with its laws
    [ComponentRegistryLaws]; the clients ([Vue], [Index], [Loader]) are
    proved against the class, and the finite map of the spec discharges
    it.  Sequences of registrations ([register_many]) are read through
    their lookups. *)

From S2P Require Import Prelude JsObject.

(** ** The interface *)

Class ComponentRegistry (R : Type) := {
  reg_empty : R;
  reg_register : string -> value -> R -> R;
  reg_lookup : R -> string -> option value;
}.

Class ComponentRegistryLaws (R : Type) `{!ComponentRegistry R} := {
  reg_lookup_empty k : reg_lookup reg_empty k = None;
  reg_lookup_register_eq k v r : reg_lookup (reg_register k v r) k = Some v;
  reg_lookup_register_ne k k' v r :
    k <> k' -> reg_lookup (reg_register k v r) k' = reg_lookup r k';
}.

Section registry_defs.
  Context {R : Type} `{!ComponentRegistry R}.

  (** A sequence of registrations, performed in list order. *)
Definition register_many (ops : list (string * value)) (r : R) : R :=
    foldl (fun r kv => reg_register kv.1 kv.2 r) r ops.
End registry_defs.

(** ** The implementation: a finite map (the spec's registry) *)

#[export] Instance map_registry : ComponentRegistry (gmap string value) := {
  reg_empty := ∅;
  reg_register k v r := <[k := v]> r;
  reg_lookup r k := r !! k;
}.

(** ** The map satisfies the laws *)

#[export] Instance map_registry_laws : ComponentRegistryLaws (gmap string value).
Proof.
  split; simpl.
  - intros k. apply lookup_empty.
  - intros k v r. apply lookup_insert_eq.
  - intros k k' v r Hne. by apply lookup_insert_ne.
Qed.

(** ** Theory of a registry, against the interface *)

Section registry_theory.
  Context {R : Type} `{!ComponentRegistry R, !ComponentRegistryLaws R}.

Lemma reg_lookup_register r k v k' :
    reg_lookup (reg_register k v r) k' = if decide (k' = k) then Some v else reg_lookup r k'.
  Proof.
    case_decide as Hk; subst; [apply reg_lookup_register_eq|].
    apply reg_lookup_register_ne. congruence.
  Qed.

  (** A lookup after a sequence of registrations finds the last
      registration of the name, or else what the registry held before. *)
Theorem reg_lookup_register_many ops r k :
    reg_lookup (register_many ops r) k = get_own (reverse ops) k ∪ reg_lookup r k.
  Proof.
    revert r. induction ops as [|[k0 v0] ops IH]; intros r; simpl.
    - destruct_unions.
    - rewrite IH, reverse_cons, get_own_app, get_own_cons, reg_lookup_register. simpl.
      destruct_unions.
  Qed.

End registry_theory.
