(* ===== verification/Vue.v ===== *)
(** * The host seen by [index.js], and [Vue.component] as the spec states it

    [index.js] needs two things from its environment: the ECMAScript heap
    (to allocate [Components] and read [Components[name]]) and the
    imported [Vue]'s [component] method.  The type class [JsHost] states
    that interface; the module body ([Index]) is written against it.  Two
    hosts implement it:

    - [rt_state R] in this file: the heap and a registry of the
      [ComponentRegistry] interface, with [Vue.component(id, definition)]
      as the spec describes it and as Vue 2's [initAssetRegisters] does
      for definitions that need no wrapping ([src/core/global-api/assets.js]
      of Vue, not part of this repository; documented as "register or
      retrieve a global component"): when [definition] is falsy the call is
      a lookup that returns the registered definition (or [undefined]) and
      changes nothing; otherwise the definition is stored under [id],
      overwriting, and returned;
    - [Vue2.v2_state]: Vue 2 with [Vue.extend], its constructor cache and
      its name validation. *)

From S2P Require Import Prelude JsObject Registry.

(** ** The interface [index.js] uses *)

Class JsHost (S : Type) := {
  host_heap : S -> gmap positive (list (string * value));
  host_with_heap : gmap positive (list (string * value)) -> S -> S;
  host_component : string -> value -> comp S value;
}.

Section host.
  Context {S : Type} `{!JsHost S}.

  (** A heap-only computation run on the host state. *)
Definition lift_heap {A} (c : comp (gmap positive (list (string * value))) A) : comp S A :=
    fun st =>
      match c (host_heap st) with
      | Normal a h => Normal a (host_with_heap h st)
      | Abrupt e h => Abrupt e (host_with_heap h st)
      end.
End host.

(** ** The spec's host: a heap and a registry *)

Record rt_state (R : Type) := mk_rt {
  rt_heap : gmap positive (list (string * value));
  rt_registry : R;
}.
Arguments mk_rt {R} _ _.
Arguments rt_heap {R} _.
Arguments rt_registry {R} _.

Section vue.
  Context {R : Type} `{!ComponentRegistry R}.

  (** [Vue.component(id, definition)]: [if (!definition) return
      this.options.components[id]; ... this.options.components[id] =
      definition; return definition]. *)
Definition Vue_component (id : string) (definition : value) : comp (rt_state R) value :=
    fun st =>
      if to_boolean definition
      then Normal definition (mk_rt (rt_heap st) (reg_register id definition (rt_registry st)))
      else Normal (default VUndefined (reg_lookup (rt_registry st) id)) st.

#[export] Instance rt_host : JsHost (rt_state R) := {
    host_heap := rt_heap;
    host_with_heap h st := mk_rt h (rt_registry st);
    host_component := Vue_component;
  }.
End vue.
