(* ===== verification/Index.v ===== *)
(** * The module body of [src/src/components/index.js]

    Lines 4-12, run on the runtime state (heap and host registry) once
    the imports of lines 1-2 are bound: [Components] allocates the object
    literal of lines 4-6, [register_callback] is the arrow function of
    line 9, [register_all] the statement of lines 8-10, and [index_body]
    the whole body, whose result is the default export of line 12.  The
    imported component is the parameter [IntersectionScroller]; the
    environment is any [JsHost].  The theorems of this file are about the
    spec's host [rt_state R], for any registry satisfying the
    [ComponentRegistry] laws; [Vue2Index] runs the same definitions on
    Vue 2. *)

From S2P Require Import Prelude JsObject Registry Vue.

Section index.
  Context {S : Type} `{!JsHost S}.

  (** Lines 4-6: [const Components = { IntersectionScroller };] *)
Definition Components (IntersectionScroller : value) : comp S value :=
    fun st =>
      let '(l, h) := alloc (object_literal [("IntersectionScroller", IntersectionScroller)])
                           (host_heap st) in
      Normal (VObj l) (host_with_heap h st).

  (** Line 9: [name => { Vue.component(name, Components[name]); }] *)
Definition register_callback (Components : value) (name : string) : comp S unit :=
    d <- lift_heap (get_value Components name) ;;
    _ <- host_component name d ;;
    ret tt.

  (** Lines 8-10: [Object.keys(Components).forEach(...)] *)
Definition register_all (Components : value) : comp S unit :=
    names <- lift_heap (Object_keys Components) ;;
    for_each (register_callback Components) names.

  (** Lines 4-12: the body; its result is the default export. *)
Definition index_body (IntersectionScroller : value) : comp S value :=
    c <- Components IntersectionScroller ;;
    register_all c ;;
    ret c.

  (** Hosts whose heap update with the current heap changes nothing. *)
  Hypothesis host_with_heap_id : forall st, host_with_heap (host_heap st) st = st.

Lemma own_property_keys_single k v : own_property_keys [(k, v)] = [k].
  Proof.
    unfold own_property_keys. simpl. rewrite !filter_cons, !filter_nil.
    destruct (is_array_index k); simpl; done.
  Qed.

  (** On an object with a single property, the loop is one call of
      [Vue.component]. *)
Lemma register_all_single (st : S) l k v :
    host_heap st !! l = Some [(k, v)] ->
    register_all (VObj l) st
    = match host_component k v st with
      | Normal _ st' => Normal tt st'
      | Abrupt e st' => Abrupt e st'
      end.
  Proof.
    intros Hl. unfold register_all, bind, lift_heap, Object_keys.
    rewrite Hl. simpl. rewrite own_property_keys_single. simpl.
    unfold register_callback, bind, lift_heap, get_value. rewrite host_with_heap_id, Hl.
    simpl. rewrite decide_True by done. simpl. rewrite host_with_heap_id.
    destruct (host_component k v st); simpl; done.
  Qed.
End index.

(** ** What the loop registers

    The value [Components[name]] read for a key of an object, and the
    registrations [Vue.component] performs for an object: its own keys in
    [Object.keys] order paired with their values, the falsy ones left out
    (for them the call is a lookup). *)
Definition own_value (o : list (string * value)) (k : string) : value :=
  default VUndefined (get_own o k).

Definition registrations (o : list (string * value)) : list (string * value) :=
  filter (fun kv => to_boolean kv.2 = true) ((fun k => (k, own_value o k)) <$> own_property_keys o).

(** The registered value of a key, if any: its own value when truthy. *)
Definition truthy_own (o : list (string * value)) (k : string) : option value :=
  match get_own o k with
  | Some v => if to_boolean v then Some v else None
  | None => None
  end.

Lemma get_own_registrations o k : get_own (reverse (registrations o)) k = truthy_own o k.
Proof.
  unfold registrations. rewrite <- filter_reverse, <- fmap_reverse, get_own_graph.
  unfold truthy_own, own_value.
  destruct (get_own o k) as [v|] eqn:Hk; simpl.
  - assert (k ∈ reverse (own_property_keys o)) as Hin.
    { rewrite elem_of_reverse, own_property_keys_elem_of.
      apply list_elem_of_fmap. exists (k, v). split; [done|]. by apply get_own_elem_of. }
    destruct (to_boolean v); [rewrite decide_True | rewrite decide_False]; naive_solver.
  - rewrite decide_False; [done|]. rewrite elem_of_reverse, own_property_keys_elem_of.
    apply get_own_None in Hk. naive_solver.
Qed.

Section index_lemmas.
  Context {R : Type} `{!ComponentRegistry R}.

Lemma register_callback_step h r l o k :
    h !! l = Some o ->
    register_callback (VObj l) k (mk_rt h r : rt_state R)
    = Normal tt (mk_rt h (if to_boolean (own_value o k)
                          then reg_register k (own_value o k) r else r)).
  Proof.
    intros Hl. unfold register_callback, bind, ret, lift_heap, get_value. simpl.
    rewrite Hl. simpl. fold (own_value o k).
    unfold Vue_component. simpl. by destruct (to_boolean (own_value o k)).
  Qed.

Lemma for_each_register_callback h r l o names :
    h !! l = Some o ->
    for_each (register_callback (VObj l)) names (mk_rt h r : rt_state R)
    = Normal tt (mk_rt h (register_many
        (filter (fun kv => to_boolean kv.2 = true) ((fun k => (k, own_value o k)) <$> names)) r)).
  Proof.
    intros Hl. revert r. induction names as [|k names IH]; intros r; [done|].
    cbn [for_each]. unfold bind. rewrite (register_callback_step _ _ _ o) by done.
    rewrite IH, fmap_cons, filter_cons. simpl.
    by destruct (to_boolean (own_value o k)).
  Qed.

  (** The loop of lines 8-10 on an object [o] performs exactly the
      registrations of [o], in [Object.keys] order, leaves the heap
      unchanged and completes normally. *)
Theorem register_all_spec (st : rt_state R) l o :
    rt_heap st !! l = Some o ->
    register_all (VObj l) st
    = Normal tt (mk_rt (rt_heap st) (register_many (registrations o) (rt_registry st))).
  Proof.
    intros Hl. destruct st as [h r]. simpl in Hl.
    unfold register_all, bind, lift_heap, Object_keys. simpl. rewrite Hl. simpl.
    by apply for_each_register_callback.
  Qed.

Lemma registrations_component v :
    registrations [("IntersectionScroller", v)]
    = if to_boolean v then [("IntersectionScroller", v)] else [].
  Proof.
    unfold registrations, own_value. simpl. rewrite filter_cons. cbn [snd].
    by destruct (to_boolean v).
  Qed.

  (** The module body (lines 4-12): it allocates [Components] at a fresh
      location holding the single property [IntersectionScroller], calls
      [Vue.component("IntersectionScroller", IntersectionScroller)], which
      registers the import when it is truthy, and returns [Components] as
      the default export.  It never throws. *)
Theorem index_body_spec (st : rt_state R) v :
    let l := fresh (dom (rt_heap st)) in
    index_body v st
    = Normal (VObj l)
        (mk_rt (<[l := [("IntersectionScroller", v)]]> (rt_heap st))
               (if to_boolean v then reg_register "IntersectionScroller" v (rt_registry st)
                else rt_registry st)).
  Proof.
    intros l. unfold index_body, bind, Components, alloc. simpl.
    rewrite (register_all_spec _ _ [("IntersectionScroller", v)]) by apply lookup_insert_eq.
    simpl. rewrite registrations_component. by destruct (to_boolean v).
  Qed.

  (** C6: A falsy import, such as [undefined] for a component module without a
      default export, is silently not registered: [Vue.component] becomes
      a lookup, and no error is raised. *)
Theorem index_falsy_import_not_registered (st : rt_state R) v :
    to_boolean v = false ->
    exists l st', index_body v st = Normal (VObj l) st' /\ rt_registry st' = rt_registry st.
  Proof. intros Hv. do 2 eexists. rewrite index_body_spec, Hv. by split. Qed.

  Context `{!ComponentRegistryLaws R}.

  (** C1: After the body, the registry maps ["IntersectionScroller"] to the
      imported value itself (for an object, the same heap location), every
      other name keeps its registration, and the default export is a fresh
      object whose only property is that same value. *)
Theorem index_registers_component (st : rt_state R) v :
    to_boolean v = true ->
    exists l st', index_body v st = Normal (VObj l) st'
      /\ reg_lookup (rt_registry st') "IntersectionScroller" = Some v
      /\ (forall k, k <> "IntersectionScroller" ->
            reg_lookup (rt_registry st') k = reg_lookup (rt_registry st) k)
      /\ rt_heap st !! l = None
      /\ rt_heap st' !! l = Some [("IntersectionScroller", v)].
  Proof.
    intros Hv. do 2 eexists. rewrite index_body_spec, Hv. split_and!; simpl.
    - done.
    - apply reg_lookup_register_eq.
    - intros k Hk. apply reg_lookup_register_ne. congruence.
    - apply not_elem_of_dom, is_fresh.
    - apply lookup_insert_eq.
  Qed.

  (** C5: After the loop, a name is registered to an object's own value when
      that value is truthy; every other name keeps its registration. *)
Theorem register_all_lookup (st : rt_state R) l o k :
    rt_heap st !! l = Some o ->
    exists st', register_all (VObj l) st = Normal tt st'
      /\ rt_heap st' = rt_heap st
      /\ reg_lookup (rt_registry st') k = truthy_own o k ∪ reg_lookup (rt_registry st) k.
  Proof.
    intros Hl. eexists. rewrite (register_all_spec _ _ o) by done.
    split_and!; [done|done|]. simpl.
    by rewrite reg_lookup_register_many, get_own_registrations.
  Qed.

End index_lemmas.

(** ** Witnesses, at the map registry *)

Abbreviation map_rt := (rt_state (gmap string value)) (only parsing).

(** A heap holding one object at location 1 with two properties, one of
    them falsy. *)
Definition sample_heap : gmap positive (list (string * value)) :=
  {[1%positive := [("IntersectionScroller", VObj 7); ("Disabled", VUndefined)]]}.

Lemma index_registers_component_witness :
  exists l (st' : map_rt), index_body (VObj 7) (mk_rt ∅ ∅) = Normal (VObj l) st'
    /\ reg_lookup (rt_registry st') "IntersectionScroller" = Some (VObj 7).
Proof.
  destruct (index_registers_component (mk_rt ∅ ∅ : map_rt) (VObj 7)) as (l & st' & H1 & H2 & _);
    [reflexivity|].
  exists l, st'. split; assumption.
Defined.

Lemma register_all_lookup_witness :
  exists st' : map_rt, register_all (VObj 1) (mk_rt sample_heap ∅) = Normal tt st'
    /\ reg_lookup (rt_registry st') "Disabled" = None.
Proof.
  destruct (register_all_lookup (mk_rt sample_heap ∅ : map_rt) 1
              [("IntersectionScroller", VObj 7); ("Disabled", VUndefined)] "Disabled")
    as (st' & H1 & _ & H3); [reflexivity|].
  exists st'. split; [assumption|]. rewrite H3. reflexivity.
Defined.

Lemma index_falsy_import_not_registered_witness :
  exists l (st' : map_rt), index_body VUndefined (mk_rt ∅ ∅) = Normal (VObj l) st'
    /\ rt_registry st' = ∅.
Proof. apply (index_falsy_import_not_registered (mk_rt ∅ ∅ : map_rt)). reflexivity. Defined.

