(* ===== verification/Vue2.v ===== *)
(** * Vue 2's [Vue.component], with [Vue.extend] and name validation

    The host of [Vue.v] stores the definition itself, as the spec says.
    Vue 2 does more (Vue's [src/core/global-api/assets.js],
    [global-api/extend.js], [util/options.js] and
    [platforms/web/util/element.js]; not part of this repository, modelled
    from their code as published):

    - in development builds, [validateComponentName(id)] warns when the
      name is not a valid custom-element name or is a built-in or reserved
      HTML/SVG tag;
    - a plain options object gets [definition.name = definition.name || id]
      and is replaced by [Vue.extend(definition)], a constructor function;
    - [Vue.extend] caches the constructor in [extendOptions._Ctor[SuperId]]
      ([SuperId] is [Vue.cid], 0) and hands out [cid]s from a counter.

    The state [v2_state] holds the heap, the set of heap locations that
    are function objects (what [isPlainObject] tells apart), the registry
    [Vue.options.components], the [cid] counter, the development flag and
    the console warnings.  Only the properties of a constructor that the
    code reads back are modelled ([cid], [extendOptions]); option merging
    and prototypes are not.  Names are byte strings: the pattern's ASCII
    part is checked exactly, and bytes of non-ASCII characters are
    accepted after the first character (the pattern's Unicode ranges cover
    the letters of most scripts). *)

From S2P Require Import Prelude JsObject Registry Vue.
From Stdlib Require Import Ascii.

Record v2_state := mk_v2 {
  v2_heap : gmap positive (list (string * value));
  v2_functions : gset positive;
  v2_components : gmap string value;
  v2_cid : Z;
  v2_dev : bool;
  v2_warnings : list string;
}.

(** ** Heap access *)

(** [obj[k] = v] on an ordinary object without setters: an existing data
    property is overwritten in place, a new one is appended. *)
Definition heap_set (l : positive) (k : string) (v : value)
    (h : gmap positive (list (string * value))) : gmap positive (list (string * value)) :=
  match h !! l with
  | Some o => <[l := create_data_property o k v]> h
  | None => h
  end.

(** [v[k] = x] in strict-mode code: a TypeError on a primitive. *)
Definition set_value (v : value) (k : string) (x : value) : comp heap unit :=
  fun h =>
    match v with
    | VObj l => Normal tt (heap_set l k x h)
    | _ => Abrupt (TypeError ("Cannot create property '" ++ k ++ "'")) h
    end.

Definition set_heap (h : gmap positive (list (string * value))) (st : v2_state) : v2_state :=
  mk_v2 h (v2_functions st) (v2_components st) (v2_cid st) (v2_dev st) (v2_warnings st).

Definition warn (msg : string) (st : v2_state) : v2_state :=
  mk_v2 (v2_heap st) (v2_functions st) (v2_components st) (v2_cid st) (v2_dev st)
        (v2_warnings st ++ [msg]).

(** ** [validateComponentName] *)

Definition is_ascii_letter (c : ascii) : bool :=
  let n := nat_of_ascii c in ((65 <=? n) && (n <=? 90)) || ((97 <=? n) && (n <=? 122)).

Definition is_ascii_digit (c : ascii) : bool :=
  let n := nat_of_ascii c in (48 <=? n) && (n <=? 57).

(** A character allowed after the first: [\-\.0-9_a-zA-Z] and the
    Unicode ranges, whose UTF-8 bytes are at least 128. *)
Definition name_char (c : ascii) : bool :=
  is_ascii_letter c || is_ascii_digit c || Ascii.eqb c "-" || Ascii.eqb c "."
  || Ascii.eqb c "_" || (128 <=? nat_of_ascii c).

(** [/^[a-zA-Z][\-\.0-9_a-zA-Z...]*$/.test(name)] *)
Definition valid_component_name (s : string) : bool :=
  match s with
  | EmptyString => false
  | String c rest => is_ascii_letter c && forallb name_char (String.list_ascii_of_string rest)
  end.

Definition lower_ascii (c : ascii) : ascii :=
  let n := nat_of_ascii c in if (65 <=? n) && (n <=? 90) then ascii_of_nat (n + 32) else c.

Definition to_lower (s : string) : string := String.string_of_list_ascii (map lower_ascii (String.list_ascii_of_string s)).

(** [makeMap('slot,component', true)]: looked up in lower case. *)
Definition is_built_in_tag (s : string) : bool :=
  bool_decide (to_lower s ∈ ["slot"; "component"]).

Definition html_tags : list string :=
  ["html"; "body"; "base"; "head"; "link"; "meta"; "style"; "title";
   "address"; "article"; "aside"; "footer"; "header"; "h1"; "h2"; "h3"; "h4"; "h5"; "h6";
   "hgroup"; "nav"; "section"; "div"; "dd"; "dl"; "dt"; "figcaption"; "figure"; "picture";
   "hr"; "img"; "li"; "main"; "ol"; "p"; "pre"; "ul"; "a"; "b"; "abbr"; "bdi"; "bdo"; "br";
   "cite"; "code"; "data"; "dfn"; "em"; "i"; "kbd"; "mark"; "q"; "rp"; "rt"; "rtc"; "ruby";
   "s"; "samp"; "small"; "span"; "strong"; "sub"; "sup"; "time"; "u"; "var"; "wbr"; "area";
   "audio"; "map"; "track"; "video"; "embed"; "object"; "param"; "source"; "canvas";
   "script"; "noscript"; "del"; "ins"; "caption"; "col"; "colgroup"; "table"; "thead";
   "tbody"; "td"; "th"; "tr"; "button"; "datalist"; "fieldset"; "form"; "input"; "label";
   "legend"; "meter"; "optgroup"; "option"; "output"; "progress"; "select"; "textarea";
   "details"; "dialog"; "menu"; "menuitem"; "summary"; "content"; "element"; "shadow";
   "template"; "blockquote"; "iframe"; "tfoot"].

Definition svg_tags : list string :=
  ["svg"; "animate"; "circle"; "clippath"; "cursor"; "defs"; "desc"; "ellipse"; "filter";
   "font-face"; "foreignObject"; "g"; "glyph"; "image"; "line"; "marker"; "mask";
   "missing-glyph"; "path"; "pattern"; "polygon"; "polyline"; "rect"; "switch"; "symbol";
   "text"; "textpath"; "tspan"; "use"; "view"].

(** [isHTMLTag(tag) || isSVG(tag)]: the HTML map is case-sensitive, the
    SVG map looks the tag up in lower case. *)
Definition is_reserved_tag (s : string) : bool :=
  bool_decide (s ∈ html_tags) || bool_decide (to_lower s ∈ svg_tags).

(** The double quote character. *)
Definition dquote : string := String (ascii_of_nat 34) EmptyString.

Definition invalid_name_msg (name : string) : string :=
  "Invalid component name: " ++ dquote ++ name ++ dquote
  ++ ". Component names should conform to valid custom element name in html5 specification.".

Definition reserved_name_msg (name : string) : string :=
  "Do not use built-in or reserved HTML elements as component id: " ++ name.

(** [validateComponentName(name)]: two independent checks, each a
    warning. *)
Definition validate_component_name (name : string) (st : v2_state) : v2_state :=
  let st1 := if valid_component_name name then st else warn (invalid_name_msg name) st in
  if is_built_in_tag name || is_reserved_tag name then warn (reserved_name_msg name) st1 else st1.

(** ** [Vue.extend] and [Vue.component] *)

Definition v2_lift {A} (c : comp heap A) : comp v2_state A :=
  fun st =>
    match c (v2_heap st) with
    | Normal a h => Normal a (set_heap h st)
    | Abrupt e h => Abrupt e (set_heap h st)
    end.

Definition alloc_object (o : list (string * value)) : comp v2_state value :=
  fun st => let '(l, h) := alloc o (v2_heap st) in Normal (VObj l) (set_heap h st).

(** A function object: allocated and marked as a function, so that
    [isPlainObject] ([toString.call(v) === '[object Object]']) is false
    of it. *)
Definition alloc_function (o : list (string * value)) : comp v2_state value :=
  fun st =>
    let '(l, h) := alloc o (v2_heap st) in
    Normal (VObj l) (mk_v2 h ({[l]} ∪ v2_functions st) (v2_components st) (v2_cid st)
                           (v2_dev st) (v2_warnings st)).

Definition is_plain_object (v : value) (st : v2_state) : bool :=
  match v with
  | VObj l => bool_decide (l ∉ v2_functions st)
  | _ => false
  end.

(** [if (process.env.NODE_ENV !== 'production') validateComponentName(name)] *)
Definition validate_if_dev (name : string) : comp v2_state unit :=
  fun st => Normal tt (if v2_dev st then validate_component_name name st else st).

(** [cid++] *)
Definition next_cid : comp v2_state Z :=
  fun st => Normal (v2_cid st)
    (mk_v2 (v2_heap st) (v2_functions st) (v2_components st) (v2_cid st + 1)
           (v2_dev st) (v2_warnings st)).

(** [if (process.env.NODE_ENV !== 'production' && name)
    validateComponentName(name)]; a name that is not a string is not
    validated. *)
Definition validate_extend_name (name : value) : comp v2_state unit :=
  match name with
  | VStr s => if to_boolean name then validate_if_dev s else ret tt
  | _ => ret tt
  end.

(** [String(Vue.cid)]: [Vue.cid] is 0. *)
Definition SuperId : string := "0".

(** [Vue.extend(extendOptions)] with [this] the [Vue] constructor. *)
Definition Vue_extend (extendOptions : value) : comp v2_state value :=
  opts <- (if to_boolean extendOptions then ret extendOptions else alloc_object []) ;;
  c0 <- v2_lift (get_value opts "_Ctor") ;;
  cachedCtors <- (if to_boolean c0 then ret c0
                  else c <- alloc_object [] ;; v2_lift (set_value opts "_Ctor" c) ;; ret c) ;;
  cached <- v2_lift (get_value cachedCtors SuperId) ;;
  if to_boolean cached then ret cached else
  (* [const name = extendOptions.name || Super.options.name]; [Vue.options]
     has no [name] *)
  name <- v2_lift (get_value opts "name") ;;
  validate_extend_name name ;;
  cid <- next_cid ;;
  Sub <- alloc_function [("cid", VNum cid); ("extendOptions", opts)] ;;
  v2_lift (set_value cachedCtors SuperId Sub) ;;
  ret Sub.

(** [Vue.options.components[id] = definition] *)
Definition store_component (id : string) (definition : value) : comp v2_state unit :=
  fun st => Normal tt (mk_v2 (v2_heap st) (v2_functions st) (<[id := definition]> (v2_components st))
                             (v2_cid st) (v2_dev st) (v2_warnings st)).

(** [if (type === 'component' && isPlainObject(definition)) {
    definition.name = definition.name || id;
    definition = this.options._base.extend(definition) }] *)
Definition extend_if_plain (id : string) (definition : value) : comp v2_state value :=
  fun st =>
    if is_plain_object definition st
    then (n <- v2_lift (get_value definition "name") ;;
          v2_lift (set_value definition "name" (if to_boolean n then n else VStr id)) ;;
          Vue_extend definition) st
    else Normal definition st.

(** [Vue.component(id, definition)] of [initAssetRegisters], for the
    asset type ['component']. *)
Definition Vue_component_v2 (id : string) (definition : value) : comp v2_state value :=
  fun st =>
    if negb (to_boolean definition)
    then Normal (default VUndefined (v2_components st !! id)) st
    else
      (validate_if_dev id ;;
       def <- extend_if_plain id definition ;;
       store_component id def ;;
       ret def) st.

#[export] Instance v2_host : JsHost v2_state := {
  host_heap := v2_heap;
  host_with_heap := set_heap;
  host_component := Vue_component_v2;
}.

(** ** The warnings of name validation *)

(** What [validateComponentName(name)] prints, in order. *)
Definition name_warnings (name : string) : list string :=
  (if valid_component_name name then [] else [invalid_name_msg name])
  ++ (if is_built_in_tag name || is_reserved_tag name then [reserved_name_msg name] else []).

(** What [Vue.extend] prints for the [name] it reads from the options. *)
Definition extend_warnings (dev : bool) (name : value) : list string :=
  if dev then match name with
              | VStr s => if to_boolean name then name_warnings s else []
              | _ => []
              end
  else [].

(** ** Lemmas on the state *)

Lemma set_heap_id st : set_heap (v2_heap st) st = st.
Proof. by destruct st. Qed.

Lemma create_data_property_same o k v :
  get_own o k = Some v -> create_data_property o k v = o.
Proof.
  induction o as [|[k' v'] o IH]; simpl; [done|].
  case_decide; [intros [= ->]; by subst|]. intros Hk. by rewrite IH.
Qed.

Lemma heap_set_lookup h l o k v :
  h !! l = Some o -> heap_set l k v h = <[l := create_data_property o k v]> h.
Proof. intros Hl. unfold heap_set. by rewrite Hl. Qed.

Lemma validate_component_name_spec name st :
  validate_component_name name st
  = mk_v2 (v2_heap st) (v2_functions st) (v2_components st) (v2_cid st) (v2_dev st)
          (v2_warnings st ++ name_warnings name).
Proof.
  destruct st as [h fs cs cid dev ws].
  unfold validate_component_name, name_warnings, warn; simpl.
  destruct (valid_component_name name), (is_built_in_tag name || is_reserved_tag name);
    simpl; by rewrite ?app_nil_r, <-?app_assoc.
Qed.

Lemma validate_if_dev_spec name st :
  validate_if_dev name st
  = Normal tt (mk_v2 (v2_heap st) (v2_functions st) (v2_components st) (v2_cid st) (v2_dev st)
                     (v2_warnings st ++ if v2_dev st then name_warnings name else [])).
Proof.
  unfold validate_if_dev. rewrite validate_component_name_spec.
  destruct st as [h fs cs cid [] ws]; simpl; by rewrite ?app_nil_r.
Qed.

Lemma fresh_ne {A} (h : gmap positive A) l x :
  h !! l = Some x -> fresh (dom h) <> l.
Proof.
  intros Hl Heq. apply (is_fresh (dom h)). rewrite Heq. by apply elem_of_dom.
Qed.

Lemma validate_extend_name_spec n h fs cs cid dev ws :
  validate_extend_name n (mk_v2 h fs cs cid dev ws)
  = Normal tt (mk_v2 h fs cs cid dev (ws ++ extend_warnings dev n)).
Proof.
  unfold validate_extend_name, extend_warnings, ret.
  destruct n as [| | | |s|]; try (destruct dev; by rewrite ?app_nil_r).
  simpl. destruct (negb (String.eqb s "")).
  - rewrite validate_if_dev_spec. simpl. by destruct dev.
  - destruct dev; by rewrite app_nil_r.
Qed.

(** ** [Vue.extend]: the cached and the fresh case *)

(** Options whose cache already holds a constructor: [Vue.extend]
    returns it and changes nothing. *)
Lemma Vue_extend_cached st o oo c co f :
  v2_heap st !! o = Some oo -> get_own oo "_Ctor" = Some (VObj c) ->
  v2_heap st !! c = Some co -> get_own co SuperId = Some f -> to_boolean f = true ->
  Vue_extend (VObj o) st = Normal f st.
Proof.
  intros Ho Hctor Hc Hf Htf.
  unfold Vue_extend, bind, ret, v2_lift, get_value; simpl.
  rewrite Ho; simpl. rewrite Hctor; simpl. rewrite set_heap_id, Hc; simpl.
  rewrite Hf; simpl. rewrite Htf. by rewrite set_heap_id.
Qed.

(** Options without a cache: a cache object [c] is allocated and stored
    in [_Ctor], a constructor [sub] is allocated with the next [cid] and
    stored in the cache under [SuperId], and the options' [name] is
    validated. *)
Lemma Vue_extend_fresh h fs cs cid dev ws o oo :
  h !! o = Some oo -> get_own oo "_Ctor" = None ->
  let c := fresh (dom h) in
  let h2 := <[o := create_data_property oo "_Ctor" (VObj c)]> (<[c := []]> h) in
  let sub := fresh (dom h2) in
  Vue_extend (VObj o) (mk_v2 h fs cs cid dev ws) =
  Normal (VObj sub)
    (mk_v2 (<[c := [(SuperId, VObj sub)]]>
              (<[sub := [("cid", VNum cid); ("extendOptions", VObj o)]]> h2))
           ({[sub]} ∪ fs) cs (cid + 1) dev
           (ws ++ extend_warnings dev (default VUndefined (get_own oo "name")))).
Proof.
  intros Ho Hctor c h2 sub.
  assert (Hco : c <> o) by (by eapply fresh_ne).
  assert (Hsubc : sub <> c).
  { eapply fresh_ne. unfold h2. rewrite lookup_insert_ne by congruence. apply lookup_insert_eq. }
  assert (Hsubo : sub <> o). { eapply fresh_ne. unfold h2. apply lookup_insert_eq. }
  unfold Vue_extend, bind, ret, v2_lift, get_value, alloc_object, alloc, set_heap; simpl.
  rewrite Ho; simpl. rewrite Hctor; simpl. fold c.
  rewrite (heap_set_lookup _ o oo) by (by rewrite lookup_insert_ne). simpl. fold h2.
  assert (Hc2 : h2 !! c = Some []).
  { unfold h2. rewrite lookup_insert_ne by congruence. apply lookup_insert_eq. }
  assert (Ho2 : h2 !! o = Some (create_data_property oo "_Ctor" (VObj c))).
  { unfold h2. apply lookup_insert_eq. }
  rewrite ?Hc2; simpl. rewrite Ho2; simpl.
  rewrite get_own_create_data_property, decide_False by done.
  rewrite validate_extend_name_spec; simpl. fold sub.
  rewrite (heap_set_lookup _ c []) by (rewrite !lookup_insert_ne by congruence; apply Hc2).
  done.
Qed.

(** ** [Vue.component] *)

(** The [name] an options object ends up with: [definition.name || id]. *)
Definition default_name (oo : list (string * value)) (id : string) : value :=
  let n := default VUndefined (get_own oo "name") in
  if to_boolean n then n else VStr id.

(** A plain options object: [id] is validated, the object gets its
    [name], and [Vue.extend]'s constructor is what is stored. *)
Lemma Vue_component_v2_plain h fs cs cid dev ws id o oo :
  h !! o = Some oo -> o ∉ fs ->
  Vue_component_v2 id (VObj o) (mk_v2 h fs cs cid dev ws) =
  (d <- Vue_extend (VObj o) ;; store_component id d ;; ret d)
    (mk_v2 (<[o := create_data_property oo "name" (default_name oo id)]> h) fs cs cid dev
           (ws ++ if dev then name_warnings id else [])).
Proof.
  intros Ho Hfs. unfold Vue_component_v2, extend_if_plain, bind at 1; simpl.
  destruct dev; [rewrite validate_component_name_spec|rewrite app_nil_r]; simpl;
    unfold bind, v2_lift, get_value, set_value, set_heap, default_name; simpl;
    rewrite bool_decide_eq_true_2 by done; simpl;
    rewrite Ho; simpl; by rewrite (heap_set_lookup _ o oo).
Qed.

(** ** The console only grows

    No operation of the host changes the build mode or removes or
    rewrites a printed warning: every state it leaves, normal or thrown,
    has the warnings of the state before as a prefix. *)
Definition warnings_grow (st st' : v2_state) : Prop :=
  v2_dev st' = v2_dev st /\ exists w, v2_warnings st' = v2_warnings st ++ w.

#[export] Instance warnings_grow_preorder : PreOrder warnings_grow.
Proof.
  split.
  - intros st. split; [done|]. exists []. by rewrite app_nil_r.
  - intros s1 s2 s3 [D1 [w1 H1]] [D2 [w2 H2]]. split; [congruence|].
    exists (w1 ++ w2). by rewrite H2, H1, app_assoc.
Qed.

Lemma warnings_grow_same st st' :
  v2_dev st' = v2_dev st -> v2_warnings st' = v2_warnings st -> warnings_grow st st'.
Proof. intros D H. split; [done|]. exists []. by rewrite H, app_nil_r. Qed.

Lemma v2_lift_grows {A} (c : comp heap A) : comp_rel warnings_grow (v2_lift c).
Proof. intros st. unfold v2_lift. by destruct (c (v2_heap st)); apply warnings_grow_same. Qed.

Lemma alloc_object_grows o : comp_rel warnings_grow (alloc_object o).
Proof. intros st. unfold alloc_object. by destruct (alloc o _); apply warnings_grow_same. Qed.

Lemma alloc_function_grows o : comp_rel warnings_grow (alloc_function o).
Proof. intros st. unfold alloc_function. by destruct (alloc o _); apply warnings_grow_same. Qed.

Lemma next_cid_grows : comp_rel warnings_grow next_cid.
Proof. intros st. by apply warnings_grow_same. Qed.

Lemma store_component_grows id d : comp_rel warnings_grow (store_component id d).
Proof. intros st. by apply warnings_grow_same. Qed.

Lemma validate_if_dev_grows name : comp_rel warnings_grow (validate_if_dev name).
Proof. intros st. rewrite validate_if_dev_spec. split; [done|]. by eexists. Qed.

Lemma validate_extend_name_grows name : comp_rel warnings_grow (validate_extend_name name).
Proof.
  intros [h fs cs cid dev ws]. rewrite validate_extend_name_spec. split; [done|]. by eexists.
Qed.

#[export] Hint Resolve v2_lift_grows alloc_object_grows alloc_function_grows next_cid_grows
  store_component_grows validate_if_dev_grows validate_extend_name_grows : shim.

Lemma Vue_extend_grows d : comp_rel warnings_grow (Vue_extend d).
Proof. unfold Vue_extend. repeat comp_rel_step; auto with shim. Qed.

Lemma extend_if_plain_grows id d : comp_rel warnings_grow (extend_if_plain id d).
Proof.
  intros st. unfold extend_if_plain. destruct (is_plain_object d st); [|reflexivity].
  revert st. change (comp_rel warnings_grow (n <- v2_lift (get_value d "name") ;;
    v2_lift (set_value d "name" (if to_boolean n then n else VStr id)) ;; Vue_extend d)).
  repeat comp_rel_step; auto using Vue_extend_grows with shim.
Qed.

Lemma name_warnings_reserved name :
  is_built_in_tag name || is_reserved_tag name = true ->
  reserved_name_msg name ∈ name_warnings name.
Proof.
  intros Hr. unfold name_warnings. rewrite Hr. apply elem_of_app. right. by left.
Qed.

(** In a development build, registering a truthy definition under a
    built-in tag ([slot], [component], in any case) or a reserved HTML or
    SVG tag prints the warning "Do not use built-in or reserved HTML
    elements as component id", whatever the rest of the call does (it may
    even throw). *)
Theorem Vue_component_v2_reserved_warns id d st :
  v2_dev st = true -> to_boolean d = true -> is_built_in_tag id || is_reserved_tag id = true ->
  reserved_name_msg id ∈ v2_warnings (outcome_state (Vue_component_v2 id d st)).
Proof.
  intros Hdev Hd Hr. unfold Vue_component_v2. rewrite Hd. simpl. unfold bind at 1.
  rewrite validate_if_dev_spec, Hdev.
  set (st1 := mk_v2 _ _ _ _ _ _).
  pose proof (comp_rel_bind warnings_grow _ _ (extend_if_plain_grows id d)
              (fun def => comp_rel_bind warnings_grow _ _ (store_component_grows id def)
                            (fun _ => comp_rel_ret warnings_grow def)) st1) as Hw.
  destruct Hw as [_ [w Hw]].
  rewrite Hw. simpl. rewrite <- app_assoc. apply elem_of_app. right.
  apply elem_of_app. left. by apply name_warnings_reserved.
Qed.
