(* ===== verification/Vue2Inv.v ===== *)
(** * The invariant of the Vue 2 host: no plain options object is registered

    Vue 2 registers a plain options object only through [Vue.extend], so
    the registry [Vue.options.components] holds constructors (function
    objects) or other truthy values that are not plain objects.  That
    rests on a second invariant of the heap: whatever an options object's
    [_Ctor] cache holds under [SuperId] is itself a constructor.  The pair
    is [v2_inv]; every [Vue.component] call keeps it, whether it returns
    or throws (Hoare triples of [Prelude]).  The theorem at the level of
    the module body is in [Vue2Index]. *)

From S2P Require Import Prelude JsObject Registry Vue Vue2.

(** A value Vue may keep as a registered component: truthy, and not a
    plain object. *)
Definition registrable (st : v2_state) (v : value) : Prop :=
  to_boolean v = true /\ is_plain_object v st = false.

(** A [_Ctor] cache whose entry for [SuperId], when truthy, is
    registrable. *)
Definition cache_ok (st : v2_state) (c : value) : Prop :=
  forall cl co f, c = VObj cl -> v2_heap st !! cl = Some co -> get_own co SuperId = Some f ->
    to_boolean f = true -> is_plain_object f st = false.

Definition v2_inv (st : v2_state) : Prop :=
  (forall id v, v2_components st !! id = Some v -> registrable st v)
  /\ (forall l o c, v2_heap st !! l = Some o -> get_own o "_Ctor" = Some c -> cache_ok st c).

(** ** Transport of the invariant *)

(** The invariant reads the heap, the function objects and the
    registry; the warnings and the [cid] counter do not matter. *)
Lemma not_plain_mono st st' v :
  v2_functions st ⊆ v2_functions st' -> is_plain_object v st = false ->
  is_plain_object v st' = false.
Proof.
  destruct v; simpl; try done. rewrite !bool_decide_eq_false. set_solver.
Qed.

Lemma registrable_mono st st' v :
  v2_functions st ⊆ v2_functions st' -> registrable st v -> registrable st' v.
Proof. intros Hf [Ht Hp]. split; [done|]. by eapply not_plain_mono. Qed.

Lemma cache_ok_frame st st' c :
  v2_heap st' = v2_heap st -> v2_functions st ⊆ v2_functions st' -> cache_ok st c -> cache_ok st' c.
Proof.
  intros Hh Hf Hc cl co f Hcl Hco Hfo Ht. rewrite Hh in Hco.
  eapply not_plain_mono; [done|]. by eapply Hc.
Qed.

Lemma v2_inv_frame st st' :
  v2_heap st' = v2_heap st -> v2_functions st = v2_functions st' ->
  v2_components st' = v2_components st -> v2_inv st -> v2_inv st'.
Proof.
  intros Hh Hf Hc [Hreg Hcache]. split.
  - intros id v Hv. rewrite Hc in Hv. eapply registrable_mono; [|by eapply Hreg]. by rewrite Hf.
  - intros l o c Hl Ho. rewrite Hh in Hl. eapply cache_ok_frame; [done| |by eapply Hcache].
    by rewrite Hf.
Qed.

(** A write of a key other than [SuperId] changes no cache entry. *)
Lemma cache_ok_heap_set st l k x c :
  k <> SuperId -> cache_ok st c -> cache_ok (set_heap (heap_set l k x (v2_heap st)) st) c.
Proof.
  intros Hk Hc cl co f -> Hco Hf Ht. simpl in *. unfold heap_set in Hco.
  destruct (v2_heap st !! l) as [o|] eqn:Hl; [|by eapply Hc].
  rewrite lookup_insert in Hco. case_decide; simplify_eq; [|by eapply Hc].
  rewrite get_own_create_data_property, decide_False in Hf by done. by eapply Hc.
Qed.

(** Writing a key other than [SuperId] keeps the invariant, provided a
    write of [_Ctor] stores a good cache. *)
Lemma v2_inv_heap_set st l k x :
  k <> SuperId -> (k = "_Ctor" -> cache_ok st x) -> v2_inv st ->
  v2_inv (set_heap (heap_set l k x (v2_heap st)) st).
Proof.
  intros Hk Hx [Hreg Hcache]. split; [done|].
  intros l' o c Hl' Ho. apply cache_ok_heap_set; [done|]. simpl in Hl'. unfold heap_set in Hl'.
  destruct (v2_heap st !! l) as [o0|] eqn:Hl; [|by eapply Hcache].
  rewrite lookup_insert in Hl'. case_decide; simplify_eq; [|by eapply Hcache].
  rewrite get_own_create_data_property in Ho.
  case_decide; simplify_eq; [by apply Hx|by eapply Hcache].
Qed.

(** Writing a registrable value under [SuperId] keeps the invariant. *)
Lemma v2_inv_heap_set_super st l x :
  (to_boolean x = true -> is_plain_object x st = false) -> v2_inv st ->
  v2_inv (set_heap (heap_set l SuperId x (v2_heap st)) st).
Proof.
  intros Hx [Hreg Hcache]. split; [done|].
  intros l' o c Hl' Ho cl co f -> Hco Hf Ht. simpl in *. unfold heap_set in Hl', Hco.
  destruct (v2_heap st !! l) as [o0|] eqn:Hl; [|by eapply (Hcache l' o (VObj cl))].
  assert (Hctor : exists o1, v2_heap st !! l' = Some o1 /\ get_own o1 "_Ctor" = Some (VObj cl)).
  { rewrite lookup_insert in Hl'. case_decide; simplify_eq; [|by eexists].
    rewrite get_own_create_data_property, decide_False in Ho by done. by eexists. }
  destruct Hctor as (o1 & Ho1 & Hc1).
  rewrite lookup_insert in Hco. case_decide; simplify_eq.
  - rewrite get_own_create_data_property, decide_True in Hf by done. simplify_eq. by apply Hx.
  - by eapply (Hcache l' o1 (VObj cl)).
Qed.

(** Storing an object with neither a [_Ctor] nor a [SuperId] property at
    a location keeps the invariant, also when it is marked a function. *)
Lemma v2_inv_alloc st l o fs :
  get_own o "_Ctor" = None -> get_own o SuperId = None -> v2_functions st ⊆ fs -> v2_inv st ->
  v2_inv (mk_v2 (<[l := o]> (v2_heap st)) fs (v2_components st)
                (v2_cid st) (v2_dev st) (v2_warnings st)).
Proof.
  intros Hc Hs Hfs [Hreg Hcache]. split.
  - intros id v Hv. eapply registrable_mono; [|by eapply Hreg]. done.
  - intros l0 o' c Hl Ho cl co f -> Hco Hf Ht. simpl in *.
    rewrite lookup_insert in Hl. case_decide; simplify_eq.
    eapply not_plain_mono; [done|].
    rewrite lookup_insert in Hco. case_decide; simplify_eq.
    eapply (Hcache l0 o' (VObj cl)); eauto.
Qed.


(** ** Triples of the steps of [Vue.extend] *)

(** The working invariant of [Vue.extend]: [v2_inv], and a good cache
    [c] at hand. *)
Definition ext_inv (c : value) (st : v2_state) : Prop := v2_inv st /\ cache_ok st c.

Lemma ext_inv_frame c st st' :
  v2_heap st' = v2_heap st -> v2_functions st = v2_functions st' ->
  v2_components st' = v2_components st -> ext_inv c st -> ext_inv c st'.
Proof.
  intros Hh Hf Hc [Hi Hk]. split; [by eapply v2_inv_frame|].
  eapply cache_ok_frame; [done| |done]. by rewrite Hf.
Qed.

Lemma cache_ok_alloc st c o fs :
  get_own o SuperId = None -> v2_functions st ⊆ fs -> cache_ok st c ->
  cache_ok (mk_v2 (<[fresh (dom (v2_heap st)) := o]> (v2_heap st)) fs (v2_components st)
                  (v2_cid st) (v2_dev st) (v2_warnings st)) c.
Proof.
  intros Hs Hfs Hc cl co f -> Hco Hf Ht. simpl in *.
  rewrite lookup_insert in Hco. case_decide; simplify_eq.
  eapply not_plain_mono; [done|]. by eapply Hc.
Qed.

(** Reading a property changes no state. *)
(** A computation on the heap that only reads it changes no state. *)
Lemma lift_heap_read_frame {A} (P : v2_state -> Prop) (c : comp heap A) :
  (forall h, outcome_state (c h) = h) -> hoare P (lift_heap c) (fun _ => P) P.
Proof.
  intros Hc s Hs. unfold lift_heap. simpl. specialize (Hc (v2_heap s)).
  destruct (c (v2_heap s)); simpl in Hc; subst; by rewrite set_heap_id.
Qed.

Lemma v2_lift_get_frame (P : v2_state -> Prop) v k :
  hoare P (v2_lift (get_value v k)) (fun _ => P) P.
Proof. intros s Hs. unfold v2_lift, get_value. by destruct v; simpl; rewrite set_heap_id. Qed.

Lemma get_ctor_hoare v :
  hoare v2_inv (v2_lift (get_value v "_Ctor")) ext_inv v2_inv.
Proof.
  intros s Hs. unfold v2_lift, get_value.
  destruct v as [| | | | |l]; simpl; rewrite set_heap_id; try done;
    try (split; [done|by intros ? ? ? ?]).
  destruct (v2_heap s !! l) as [o|] eqn:Hl; simpl; [|split; [done|by intros ? ? ? ?]].
  destruct (get_own o "_Ctor") as [c|] eqn:Hc; simpl; [|split; [done|by intros ? ? ? ?]].
  split; [done|]. by eapply (proj2 Hs).
Qed.

Lemma get_cached_hoare c :
  hoare (ext_inv c) (v2_lift (get_value c SuperId))
    (fun x s => ext_inv c s /\ (to_boolean x = true -> is_plain_object x s = false)) v2_inv.
Proof.
  intros s Hs. unfold v2_lift, get_value.
  destruct c as [| | | | |l]; simpl; rewrite set_heap_id; try (by destruct Hs);
    try (split; [done|discriminate]).
  destruct (v2_heap s !! l) as [o|] eqn:Hl; simpl; [|split; [done|discriminate]].
  destruct (get_own o SuperId) as [f|] eqn:Hf; simpl; [|split; [done|discriminate]].
  split; [done|]. intros Ht. by eapply (proj2 Hs).
Qed.

Lemma alloc_cache_hoare :
  hoare v2_inv (alloc_object []) ext_inv v2_inv.
Proof.
  intros s Hs. unfold alloc_object, alloc. simpl. split.
  - by apply (v2_inv_alloc s _ []).
  - intros cl co f [= <-] Hco Hf _. simpl in Hco. rewrite lookup_insert_eq in Hco. by simplify_eq.
Qed.

Lemma alloc_function_hoare c o :
  get_own o "_Ctor" = None -> get_own o SuperId = None ->
  hoare (ext_inv c) (alloc_function o) (fun r s => ext_inv c s /\ registrable s r) v2_inv.
Proof.
  intros Hc Hs s [Hi Hk]. unfold alloc_function, alloc. simpl.
  refine (conj (conj _ _) (conj _ _)).
  - apply v2_inv_alloc; [done|done|set_solver|done].
  - apply cache_ok_alloc; [done|set_solver|done].
  - done.
  - simpl. rewrite bool_decide_eq_false. set_solver.
Qed.

Lemma set_ctor_hoare v c :
  hoare (ext_inv c) (v2_lift (set_value v "_Ctor" c)) (fun _ => ext_inv c) v2_inv.
Proof.
  intros s [Hi Hk]. unfold v2_lift, set_value.
  destruct v as [| | | | |l]; simpl; rewrite ?set_heap_id; try done.
  split; [by apply v2_inv_heap_set|by apply cache_ok_heap_set].
Qed.

Lemma set_super_hoare v x :
  hoare (fun s => v2_inv s /\ registrable s x) (v2_lift (set_value v SuperId x))
    (fun _ s => v2_inv s /\ registrable s x) v2_inv.
Proof.
  intros s [Hi Hx]. unfold v2_lift, set_value.
  destruct v as [| | | | |l]; simpl; rewrite ?set_heap_id; try done.
  split; [|done]. apply v2_inv_heap_set_super; [|done]. intros _. apply Hx.
Qed.

Lemma set_name_hoare v x :
  hoare v2_inv (v2_lift (set_value v "name" x)) (fun _ => v2_inv) v2_inv.
Proof.
  intros s Hi. unfold v2_lift, set_value.
  destruct v as [| | | | |l]; simpl; rewrite ?set_heap_id; try done.
  by apply v2_inv_heap_set.
Qed.

(** Steps that only print or count keep every assertion on the heap,
    the function objects and the registry. *)
Lemma validate_extend_name_hoare c n :
  hoare (ext_inv c) (validate_extend_name n) (fun _ => ext_inv c) v2_inv.
Proof.
  intros [h fs cs cid dev ws] Hs. rewrite validate_extend_name_spec. by eapply ext_inv_frame.
Qed.

Lemma next_cid_hoare c : hoare (ext_inv c) next_cid (fun _ => ext_inv c) v2_inv.
Proof. intros s Hs. by eapply ext_inv_frame. Qed.

(** ** [Vue.extend] and [Vue.component] keep the invariant *)

(** [Vue.extend] returns a registrable value: the cached constructor or
    a new one. *)
Lemma Vue_extend_hoare d :
  hoare v2_inv (Vue_extend d) (fun r s => v2_inv s /\ registrable s r) v2_inv.
Proof.
  unfold Vue_extend.
  apply (hoare_bind _ (fun _ => v2_inv)).
  { apply hoare_if; intros _; [by apply hoare_ret|].
    eapply hoare_conseq; [apply alloc_cache_hoare|done|by intros ? ? []|done]. }
  intros opts. apply (hoare_bind _ ext_inv); [apply get_ctor_hoare|intros c0].
  apply (hoare_bind _ ext_inv).
  { apply hoare_if; intros _; [by apply hoare_ret|].
    apply (hoare_bind _ ext_inv); [eapply hoare_conseq; [apply alloc_cache_hoare|by intros ? []|done|done]|].
    intros c. apply (hoare_bind _ (fun _ => ext_inv c)); [apply set_ctor_hoare|intros _].
    by apply hoare_ret. }
  intros cc. eapply hoare_bind; [apply get_cached_hoare|intros cached].
  apply hoare_if; intros Hc.
  { apply hoare_ret. intros s [[Hi _] Hp]. split; [done|]. split; [done|]. by apply Hp. }
  apply (hoare_bind _ (fun _ => ext_inv cc)).
  { eapply hoare_conseq; [apply v2_lift_get_frame|by intros ? []|done|by intros ? []]. }
  intros name. apply (hoare_bind _ (fun _ => ext_inv cc)); [apply validate_extend_name_hoare|intros _].
  apply (hoare_bind _ (fun _ => ext_inv cc)); [apply next_cid_hoare|intros cid].
  eapply hoare_bind; [by apply alloc_function_hoare|intros sub].
  apply (hoare_bind _ (fun _ s => v2_inv s /\ registrable s sub)).
  { eapply hoare_conseq; [apply set_super_hoare|by intros ? [[] ?]|done|done]. }
  intros _. by apply hoare_ret.
Qed.

Lemma extend_if_plain_hoare id d :
  to_boolean d = true ->
  hoare v2_inv (extend_if_plain id d) (fun r s => v2_inv s /\ registrable s r) v2_inv.
Proof.
  intros Hd s Hs. unfold extend_if_plain.
  destruct (is_plain_object d s) eqn:Hp; [clear Hp|split; [done|by split]].
  revert s Hs. change (hoare v2_inv (n <- v2_lift (get_value d "name") ;;
    v2_lift (set_value d "name" (if to_boolean n then n else VStr id)) ;; Vue_extend d)
    (fun r s => v2_inv s /\ registrable s r) v2_inv).
  eapply hoare_bind; [apply v2_lift_get_frame|intros n].
  eapply hoare_bind; [apply set_name_hoare|intros []]. apply Vue_extend_hoare.
Qed.

Lemma store_component_hoare id d :
  hoare (fun s => v2_inv s /\ registrable s d) (store_component id d) (fun _ => v2_inv) v2_inv.
Proof.
  intros s [[Hreg Hcache] Hd]. split; [|done]. simpl.
  intros id' v. rewrite lookup_insert. case_decide; intros Hv; simplify_eq; [done|by eapply Hreg].
Qed.

(** Every call of [Vue.component], whatever its arguments and whether it
    returns or throws, keeps the invariant: the registry holds only
    truthy values that are not plain objects (constructors, in practice)
    and every [_Ctor] cache holds constructors. *)
Theorem Vue_component_v2_inv id d :
  hoare v2_inv (Vue_component_v2 id d) (fun _ => v2_inv) v2_inv.
Proof.
  intros s Hs. unfold Vue_component_v2.
  destruct (to_boolean d) eqn:Hd; simpl; [|done].
  revert s Hs. change (hoare v2_inv (validate_if_dev id ;; def <- extend_if_plain id d ;;
    store_component id def ;; ret def) (fun _ => v2_inv) v2_inv).
  apply (hoare_bind _ (fun _ => v2_inv)).
  { intros s Hs. rewrite validate_if_dev_spec. by eapply v2_inv_frame. }
  intros []. eapply hoare_bind; [by apply extend_if_plain_hoare|intros def].
  eapply hoare_bind; [apply store_component_hoare|intros []]. by apply hoare_ret.
Qed.
