(* ===== verification/Vue2Index.v ===== *)
(** * [index.js] on Vue 2

    The definitions of [Index] run with the host [Vue2.v2_host]: the same
    module body, with Vue 2's [Vue.component], which wraps the plain
    options object of the component in a constructor made by
    [Vue.extend].  The registry then holds that constructor, not the
    import (the identity of the spec's host fails), the options object
    shared with the default export gets a [name], a second registration
    finds the constructor in the options' cache and changes nothing, a
    valid component name prints no warning, and an export that is not a
    plain options object is registered as it is (or, falsy, not at
    all). *)

From S2P Require Import Prelude JsObject Registry Vue Index Vue2 Vue2Inv.

Lemma v2_with_heap_id (st : v2_state) : host_with_heap (host_heap st) st = st.
Proof. apply set_heap_id. Qed.

(** ["IntersectionScroller"] is a valid component name that is neither a
    built-in nor a reserved tag. *)
Lemma IntersectionScroller_name_warnings : name_warnings "IntersectionScroller" = [].
Proof. vm_compute. reflexivity. Qed.

Lemma extend_warnings_default_name oo :
  get_own oo "name" = None -> forall dev, extend_warnings dev (default_name oo "IntersectionScroller") = [].
Proof.
  intros Hn dev. unfold default_name. rewrite Hn. simpl.
  destruct dev; [apply IntersectionScroller_name_warnings|done].
Qed.

Lemma default_name_truthy oo : to_boolean (default_name oo "IntersectionScroller") = true.
Proof. unfold default_name. by destruct (to_boolean (default VUndefined (get_own oo "name"))) eqn:H. Qed.

(** ** The module on Vue 2

    The module body, its loop and its callback with [import Vue from
    "vue"] bound to Vue 2. *)
Definition index_body_v2 : value -> comp v2_state value := index_body.

Definition register_all_v2 : value -> comp v2_state unit := register_all.

Definition register_callback_v2 : value -> string -> comp v2_state unit := register_callback.

(** ** The run of the body

    The import is a plain options object [o] (what the compiled
    single-file component exports) whose own properties [oo] have no
    [_Ctor] cache yet. *)
Section index_v2.
  Variables (h : gmap positive (list (string * value))) (fs : gset positive)
    (cs : gmap string value) (cid : Z) (dev : bool) (ws : list string)
    (o : positive) (oo : list (string * value)).
  Hypothesis Ho : h !! o = Some oo.
  Hypothesis Hplain : o ∉ fs.
  Hypothesis Hctor : get_own oo "_Ctor" = None.

  (** The export [Components], the options after [name] is set, the
      cache object and the constructor, as they are allocated. *)
#[local] Definition l := fresh (dom h).
#[local] Definition h0 := <[l := [("IntersectionScroller", VObj o)]]> h.
#[local] Definition oo1 := create_data_property oo "name" (default_name oo "IntersectionScroller").
#[local] Definition h1 := <[o := oo1]> h0.
#[local] Definition c := fresh (dom h1).
#[local] Definition h2 := <[o := create_data_property oo1 "_Ctor" (VObj c)]> (<[c := []]> h1).
#[local] Definition sub := fresh (dom h2).
#[local] Definition h3 :=
  <[c := [(SuperId, VObj sub)]]> (<[sub := [("cid", VNum cid); ("extendOptions", VObj o)]]> h2).

Lemma index_body_v2_run :
    index_body_v2 (VObj o) (mk_v2 h fs cs cid dev ws)
    = Normal (VObj l)
        (mk_v2 h3 ({[sub]} ∪ fs) (<[("IntersectionScroller") := VObj sub]> cs) (cid + 1) dev
               (ws ++ extend_warnings dev (default_name oo "IntersectionScroller"))).
  Proof.
    assert (Hlo : l <> o) by (by eapply fresh_ne).
    unfold index_body_v2, index_body, bind at 1, Components, alloc. simpl. fold l.
    change (object_literal [("IntersectionScroller", VObj o)]) with [("IntersectionScroller", VObj o)].
    fold h0.
    unfold bind at 1. rewrite (register_all_single v2_with_heap_id _ _ "IntersectionScroller" (VObj o)) by apply lookup_insert_eq.
    unfold set_heap. simpl. rewrite (Vue_component_v2_plain _ _ _ _ _ _ _ _ oo)
      by first [done | unfold h0; by rewrite lookup_insert_ne by congruence].
    rewrite IntersectionScroller_name_warnings.
    replace (if dev then [] else []) with (@nil string) by by destruct dev.
    rewrite app_nil_r. fold oo1 h1. unfold bind at 1.
    rewrite (Vue_extend_fresh _ _ _ _ _ _ _ oo1) by
      first [apply lookup_insert_eq
            | unfold oo1; rewrite get_own_create_data_property; by rewrite decide_False].
    simpl. fold c h2 sub h3.
    unfold oo1. rewrite get_own_create_data_property, decide_True by done. done.
  Qed.

Lemma index_v2_locs :
    l <> o /\ c <> o /\ c <> l /\ sub <> o /\ sub <> l /\ sub <> c /\ h !! sub = None.
  Proof.
    assert (l <> o) by (by eapply fresh_ne).
    assert (Hh1l : h1 !! l = Some [("IntersectionScroller", VObj o)]).
    { unfold h1, h0. rewrite lookup_insert_ne by congruence. apply lookup_insert_eq. }
    assert (c <> o) by (eapply fresh_ne; apply lookup_insert_eq).
    assert (c <> l) by (by eapply fresh_ne).
    assert (Hh2 : forall k, k <> o -> k <> c -> h2 !! k = h1 !! k).
    { intros k Hk1 Hk2. unfold h2. by rewrite !lookup_insert_ne by congruence. }
    split_and!; try done.
    - eapply fresh_ne. apply lookup_insert_eq.
    - eapply fresh_ne. rewrite Hh2 by congruence. apply Hh1l.
    - eapply fresh_ne. unfold h2. rewrite lookup_insert_ne by congruence. apply lookup_insert_eq.
    - apply eq_None_not_Some. intros [x Hx].
      apply (is_fresh (dom h2)). fold sub. apply elem_of_dom.
      unfold h2, h1, h0. destruct (decide (sub = o)) as [->|]; [by rewrite lookup_insert_eq|].
      rewrite lookup_insert_ne by done. destruct (decide (sub = c)) as [->|]; [by rewrite lookup_insert_eq|].
      rewrite !lookup_insert_ne by done.
      destruct (decide (sub = l)) as [->|]; [by rewrite lookup_insert_eq|].
      rewrite lookup_insert_ne by done. by eexists.
  Qed.

Lemma index_v2_heap :
    h3 !! l = Some [("IntersectionScroller", VObj o)]
    /\ h3 !! o = Some (create_data_property oo1 "_Ctor" (VObj c))
    /\ h3 !! c = Some [(SuperId, VObj sub)]
    /\ h3 !! sub = Some [("cid", VNum cid); ("extendOptions", VObj o)].
  Proof.
    destruct index_v2_locs as (? & ? & ? & ? & ? & ? & _).
    unfold h3, h2, h1, h0. split_and!.
    - rewrite !lookup_insert_ne by congruence. apply lookup_insert_eq.
    - rewrite !lookup_insert_ne by congruence. apply lookup_insert_eq.
    - apply lookup_insert_eq.
    - rewrite lookup_insert_ne by congruence. apply lookup_insert_eq.
  Qed.

Lemma get_own_oo1_name : get_own oo1 "name" = Some (default_name oo "IntersectionScroller").
  Proof. unfold oo1. by rewrite get_own_create_data_property, decide_True. Qed.

  (** C12: Under Vue 2 the registry does not hold the import: after the
      body, ["IntersectionScroller"] is registered to a fresh constructor
      function made by [Vue.extend] from the imported options object, every
      other name keeps its registration, and the [cid] counter advances by
      one. *)
Theorem v2_index_registers_constructor :
    exists lc st' f, index_body_v2 (VObj o) (mk_v2 h fs cs cid dev ws) = Normal (VObj lc) st'
      /\ v2_components st' !! "IntersectionScroller" = Some (VObj f)
      /\ f <> o /\ f ∈ v2_functions st' /\ h !! f = None
      /\ v2_heap st' !! f = Some [("cid", VNum cid); ("extendOptions", VObj o)]
      /\ (forall k, k <> "IntersectionScroller" -> v2_components st' !! k = cs !! k)
      /\ v2_cid st' = (cid + 1)%Z.
  Proof.
    destruct index_v2_locs as (_ & _ & _ & ? & _ & _ & ?).
    destruct index_v2_heap as (_ & _ & _ & ?).
    do 3 eexists. rewrite index_body_v2_run. split_and!; try done; cbn [v2_components v2_functions].
    - apply lookup_insert_eq.
    - set_solver.
    - intros k Hk. by rewrite lookup_insert_ne by congruence.
  Qed.


  (** C14: Running the registration loop again on the export changes
      nothing at all: [Vue.extend] finds the constructor in the options'
      [_Ctor] cache, so no second constructor is made, the [cid] counter
      does not move and nothing is printed. *)
Theorem v2_register_all_twice :
    exists lc st', index_body_v2 (VObj o) (mk_v2 h fs cs cid dev ws) = Normal (VObj lc) st'
      /\ register_all_v2 (VObj lc) st' = Normal tt st'.
  Proof.
    destruct index_v2_locs as (_ & _ & _ & ? & _ & _ & _).
    destruct index_v2_heap as (? & ? & ? & _).
    do 2 eexists. rewrite index_body_v2_run. split; [done|]. unfold register_all_v2.
    rewrite (register_all_single v2_with_heap_id _ _ "IntersectionScroller" (VObj o)) by done.
    simpl. rewrite (Vue_component_v2_plain _ _ _ _ _ _ _ _ (create_data_property oo1 "_Ctor" (VObj c)))
      by (done || set_solver).
    assert (Hname : get_own (create_data_property oo1 "_Ctor" (VObj c)) "name"
                    = Some (default_name oo "IntersectionScroller")).
    { by rewrite get_own_create_data_property, decide_False, get_own_oo1_name. }
    assert (Hdef : default_name (create_data_property oo1 "_Ctor" (VObj c)) "IntersectionScroller"
                   = default_name oo "IntersectionScroller").
    { unfold default_name at 1. rewrite Hname. simpl. by rewrite default_name_truthy. }
    rewrite Hdef, create_data_property_same, insert_id by done.
    rewrite IntersectionScroller_name_warnings.
    replace (if dev then [] else []) with (@nil string) by by destruct dev.
    rewrite app_nil_r. unfold bind at 1.
    rewrite (Vue_extend_cached _ _ _ c [(SuperId, VObj sub)] (VObj sub)) by
      first [done | by rewrite get_own_create_data_property, decide_True].
    unfold bind, store_component, ret. simpl. by rewrite insert_insert_eq.
  Qed.

  (** C15: An options object without a [name] of its own prints no warning
      in development builds: ["IntersectionScroller"] is a valid
      custom-element name and no reserved tag. *)
Theorem v2_index_no_warnings :
    get_own oo "name" = None ->
    exists lc st', index_body_v2 (VObj o) (mk_v2 h fs cs cid dev ws) = Normal (VObj lc) st'
      /\ v2_warnings st' = ws.
  Proof.
    intros Hn. do 2 eexists. rewrite index_body_v2_run. split; [done|]. simpl.
    by rewrite extend_warnings_default_name, app_nil_r.
  Qed.

  (** The body changes no other allocated object than the import. *)
Lemma index_v2_frame f : f <> o -> is_Some (h !! f) -> h3 !! f = h !! f.
  Proof.
    intros Hfo [x Hx].
    destruct index_v2_locs as (Hlo & _ & _ & _ & _ & _ & Hsub).
    assert (l <> f) by (eapply fresh_ne in Hx; done).
    assert (Hh1 : h1 !! f = Some x).
    { unfold h1, h0. by rewrite !lookup_insert_ne by congruence. }
    assert (c <> f) by (eapply fresh_ne in Hh1; done).
    assert (sub <> f) by congruence.
    unfold h3, h2. rewrite !lookup_insert_ne by congruence. by rewrite <- Hx in Hh1.
  Qed.
End index_v2.

(** ** Vue 2 refines the spec's host

    Read back through [Vue.extend], Vue 2's registry is the spec's: a
    constructor stands for the options it was made from
    ([Sub.extendOptions]). *)
Definition registered_options (st : v2_state) (k : string) : option value :=
  match v2_components st !! k with
  | Some (VObj f) =>
      match v2_heap st !! f ≫= fun fo => get_own fo "extendOptions" with
      | Some opts => Some opts
      | None => Some (VObj f)
      end
  | r => r
  end.

(** C23: Refinement: from a spec host and a Vue 2 host with the same heap
    whose registries agree through [registered_options] (and whose
    registry refers to allocated objects), running the body of [index.js]
    with a plain options object as the import gives both the same export
    location and registries that still agree: Vue 2 registers what the
    spec says, up to the constructor that wraps the options. *)
Theorem v2_refines_spec (rt : rt_state (gmap string value)) (st : v2_state) o oo :
  rt_heap rt = v2_heap st ->
  (forall k, rt_registry rt !! k = registered_options st k) ->
  (forall k f, v2_components st !! k = Some (VObj f) -> is_Some (v2_heap st !! f)) ->
  v2_heap st !! o = Some oo -> o ∉ v2_functions st -> get_own oo "_Ctor" = None ->
  exists lc rt' st', index_body (VObj o) rt = Normal (VObj lc) rt'
    /\ index_body_v2 (VObj o) st = Normal (VObj lc) st'
    /\ forall k, rt_registry rt' !! k = registered_options st' k.
Proof.
  intros Hh Hreg Halloc Ho Hpl Hc. destruct st as [h fs cs cid dev ws]. simpl in *.
  rewrite (index_body_v2_run h fs cs cid dev ws o oo) by done.
  destruct (index_v2_heap h cid o oo Ho) as (_ & Hho & _ & Hhsub).
  do 3 eexists. split; [rewrite index_body_spec; simpl; by rewrite Hh|]. split; [done|].
  intros k. simpl. unfold registered_options. simpl.
  destruct (decide (k = "IntersectionScroller")) as [->|Hk].
  - rewrite !lookup_insert_eq. simpl. by rewrite Hhsub.
  - rewrite !lookup_insert_ne by congruence. rewrite Hreg. unfold registered_options. simpl.
    destruct (cs !! k) as [[| | | | |f]|] eqn:Hf; try done.
    destruct (decide (f = o)) as [->|Hfo].
    + rewrite Hho, Ho. simpl.
      unfold oo1. by rewrite !get_own_create_data_property, !decide_False.
    + by rewrite (index_v2_frame h cid o oo Ho f Hfo (Halloc k f Hf)).
Qed.

(** ** Exports that are not plain options objects

    A component module may export a constructor already made by
    [Vue.extend], or, broken, a primitive or [undefined]. *)

(** C26: Under Vue 2 the body of [index.js] registers an export that is
    not a plain options object as it is when it is truthy, and not at all
    when it is falsy ([if (!definition) return ...]): no [Vue.extend], no
    [cid] consumed, no function object made, no warning printed, and the
    only change to the heap is the new [Components] object, which is the
    default export. *)
Theorem v2_index_not_plain_as_is h fs cs cid dev ws v :
  is_plain_object v (mk_v2 h fs cs cid dev ws) = false ->
  index_body_v2 v (mk_v2 h fs cs cid dev ws)
  = Normal (VObj (fresh (dom h)))
      (mk_v2 (<[fresh (dom h) := [("IntersectionScroller", v)]]> h) fs
             (if to_boolean v then <["IntersectionScroller" := v]> cs else cs) cid dev ws).
Proof.
  intros Hpl.
  unfold index_body_v2, index_body, bind at 1, Components, alloc. simpl.
  change (object_literal [("IntersectionScroller", v)]) with [("IntersectionScroller", v)].
  unfold bind at 1. rewrite (register_all_single v2_with_heap_id _ _ "IntersectionScroller" v)
    by apply lookup_insert_eq.
  unfold set_heap. simpl. unfold Vue_component_v2. destruct (to_boolean v); simpl; [|done].
  unfold bind at 1. rewrite validate_if_dev_spec. simpl.
  rewrite IntersectionScroller_name_warnings.
  replace (if dev then [] else []) with (@nil string) by by destruct dev.
  rewrite app_nil_r. unfold bind, extend_if_plain. simpl.
  replace (is_plain_object v _) with false by (rewrite <- Hpl; by destruct v). done.
Qed.

(** ** Reserved names *)

(** C16: In a development build, the callback of line 9 called with a key
    that is a built-in or reserved tag (say a [Components] entry named
    [Slot] or [svg]) whose value is truthy prints Vue's warning "Do not
    use built-in or reserved HTML elements as component id", whether the
    registration then completes or throws. *)
Theorem v2_register_callback_reserved_warns (st : v2_state) l o k :
  v2_heap st !! l = Some o -> v2_dev st = true -> to_boolean (own_value o k) = true ->
  is_built_in_tag k || is_reserved_tag k = true ->
  reserved_name_msg k ∈ v2_warnings (outcome_state (register_callback_v2 (VObj l) k st)).
Proof.
  intros Hl Hdev Hv Hr. unfold register_callback_v2, register_callback, bind at 1, lift_heap, get_value.
  simpl.
  rewrite Hl. simpl. fold (own_value o k). rewrite set_heap_id.
  pose proof (Vue_component_v2_reserved_warns k (own_value o k) st Hdev Hv Hr) as Hw.
  unfold bind. destruct (Vue_component_v2 k (own_value o k) st); done.
Qed.

(** ** No plain options object is registered *)




(** ** Witnesses

    A compiled single-file component: a plain options object at location
    1 with a render function (here [null]) and no [name], in a
    development build. *)
Definition sample_options : list (string * value) := [("render", VNull)].

Definition sample_v2_heap : gmap positive (list (string * value)) := {[1%positive := sample_options]}.

Lemma v2_index_registers_constructor_witness :
  exists lc st' f,
    index_body_v2 (VObj 1) (mk_v2 sample_v2_heap ∅ ∅ 1 true []) = Normal (VObj lc) st'
    /\ v2_components st' !! "IntersectionScroller" = Some (VObj f)
    /\ f <> 1%positive /\ f ∈ v2_functions st' /\ sample_v2_heap !! f = None
    /\ v2_heap st' !! f = Some [("cid", VNum 1); ("extendOptions", VObj 1)]
    /\ (forall k, k <> "IntersectionScroller" -> v2_components st' !! k = (∅ : gmap string value) !! k)
    /\ v2_cid st' = (1 + 1)%Z.
Proof.
  apply (v2_index_registers_constructor _ _ _ _ _ _ _ sample_options);
    first [reflexivity | set_solver].
Defined.


Lemma v2_register_all_twice_witness :
  exists lc st',
    index_body_v2 (VObj 1) (mk_v2 sample_v2_heap ∅ ∅ 1 true []) = Normal (VObj lc) st'
    /\ register_all_v2 (VObj lc) st' = Normal tt st'.
Proof.
  apply (v2_register_all_twice _ _ _ _ _ _ _ sample_options); first [reflexivity | set_solver].
Defined.

Lemma v2_index_no_warnings_witness :
  exists lc st',
    index_body_v2 (VObj 1) (mk_v2 sample_v2_heap ∅ ∅ 1 true []) = Normal (VObj lc) st'
    /\ v2_warnings st' = [].
Proof.
  apply (v2_index_no_warnings _ _ _ _ _ _ _ sample_options); first [reflexivity | set_solver].
Defined.

Lemma v2_register_callback_reserved_warns_witness :
  reserved_name_msg "Slot"
    ∈ v2_warnings (outcome_state (register_callback_v2 (VObj 2)
        "Slot" (mk_v2 (<[2%positive := [("Slot", VObj 1)]]> sample_v2_heap) ∅ ∅ 1 true []))).
Proof.
  apply (v2_register_callback_reserved_warns _ 2 [("Slot", VObj 1)]); vm_compute; reflexivity.
Defined.


Lemma v2_refines_spec_witness :
  exists lc (rt' : rt_state (gmap string value)) st',
    index_body (VObj 1) (mk_rt sample_v2_heap ∅ : rt_state (gmap string value))
      = Normal (VObj lc) rt'
    /\ index_body_v2 (VObj 1) (mk_v2 sample_v2_heap ∅ ∅ 1 true []) = Normal (VObj lc) st'
    /\ forall k, rt_registry rt' !! k = registered_options st' k.
Proof.
  apply (v2_refines_spec _ (mk_v2 sample_v2_heap ∅ ∅ 1 true []) 1 sample_options).
  - reflexivity.
  - intros k. unfold registered_options. simpl. by rewrite !lookup_empty.
  - intros k f Hf. simpl in Hf. by rewrite lookup_empty in Hf.
  - reflexivity.
  - set_solver.
  - reflexivity.
Defined.

(** A constructor at location 1, registered as it is. *)
Lemma v2_index_not_plain_as_is_witness :
  index_body_v2 (VObj 1) (mk_v2 sample_v2_heap {[1%positive]} ∅ 1 true [])
  = Normal (VObj (fresh (dom sample_v2_heap)))
      (mk_v2 (<[fresh (dom sample_v2_heap) := [("IntersectionScroller", VObj 1)]]> sample_v2_heap)
             {[1%positive]}
             (if to_boolean (VObj 1) then <["IntersectionScroller" := VObj 1]> ∅ else ∅) 1 true []).
Proof. apply v2_index_not_plain_as_is. vm_compute. reflexivity. Defined.
