(* ===== verification/Loader.v ===== *)
(** * Loading [index.js]: ES module evaluation

    The import declarations of lines 1-2 make the module loader evaluate
    ["vue"] and ["./intersection-scroller.vue"] before the body of
    [index.js], and every module instance is evaluated at most once: a
    later import finds it evaluated and receives the cached default
    export.  This file models that part of ECMAScript module evaluation
    (InnerModuleEvaluation without cycles or top-level await): a status
    per module specifier ([Evaluating], [Evaluated], [Errored]; absent
    when not yet evaluated), a dependency-first [evaluate] with fuel, the
    module table of the program ([program_modules]), and imports as a step
    relation on loader states.  The loader is generic in the host state
    the bodies run on; the theorems of this file hold on every host
    (caching, errors recorded and rethrown, stability of recorded
    statuses, the state frozen once [index.js] is evaluated), those of
    [LoaderSpec] and [LoaderV2] on the spec's host and on Vue 2. *)

From S2P Require Import Prelude JsObject Registry Vue Index.

Inductive mstatus : Type :=
| Evaluating
| Evaluated (ns : value)
| Errored (e : js_error).

(** A module: the specifiers it imports, in source order, and its body,
    which receives the default exports of those imports and returns its
    own default export. *)
Record module_def (St : Type) := mk_module {
  m_requests : list string;
  m_body : list value -> comp St value;
}.
Arguments mk_module {St} _ _.
Arguments m_requests {St} _.
Arguments m_body {St} _ _ _.

(** The loader's state: the status of each module instance and the
    state of the host the bodies run on. *)
Record ld_state (St : Type) := mk_ld {
  ld_status : gmap string mstatus;
  ld_rt : St;
}.
Arguments mk_ld {St} _ _.
Arguments ld_status {St} _.
Arguments ld_rt {St} _.

Section loader.
  Context {St : Type}.
  Variable mods : string -> option (module_def St).

Definition set_status (name : string) (st : mstatus) (s : ld_state St) : ld_state St :=
    mk_ld (<[name := st]> (ld_status s)) (ld_rt s).

  (** Run a module body and record its completion in the module's status. *)
Definition run_body (name : string) (m : module_def St) (imports : list value)
      (s : ld_state St) : outcome (ld_state St) value :=
    match m_body m imports (ld_rt s) with
    | Normal ns rt => Normal ns (mk_ld (<[name := Evaluated ns]> (ld_status s)) rt)
    | Abrupt e rt => Abrupt e (mk_ld (<[name := Errored e]> (ld_status s)) rt)
    end.

  (** The loop of InnerModuleEvaluation over a module's requested
      modules, in order, with [ev] evaluating one of them: the first
      abrupt completion stops it, otherwise it collects the default
      exports. *)
Fixpoint evaluate_imports (ev : string -> ld_state St -> option (outcome (ld_state St) value))
      (reqs : list string) (s : ld_state St) : option (outcome (ld_state St) (list value)) :=
    match reqs with
    | [] => Some (Normal [] s)
    | r :: rs =>
        match ev r s with
        | None => None
        | Some (Abrupt e s') => Some (Abrupt e s')
        | Some (Normal v s') =>
            match evaluate_imports ev rs s' with
            | Some (Normal vs s'') => Some (Normal (v :: vs) s'')
            | other => other
            end
        end
    end.

  (** [None] when the fuel runs out; otherwise the completion of the
      import.  An evaluated module returns its cached export, an errored
      one rethrows its error, a module under evaluation is a cycle (its
      bindings are not initialised yet).  Otherwise the module is marked
      [Evaluating], its imports are evaluated in order, and its body runs;
      an error in an import is also recorded as the importer's error. *)
Fixpoint evaluate (fuel : nat) (name : string) (s : ld_state St)
      : option (outcome (ld_state St) value) :=
    match fuel with
    | 0 => None
    | S fuel' =>
        match ld_status s !! name with
        | Some (Evaluated ns) => Some (Normal ns s)
        | Some (Errored e) => Some (Abrupt e s)
        | Some Evaluating =>
            Some (Abrupt (ReferenceError "Cannot access module before initialization") s)
        | None =>
            match mods name with
            | None => Some (Abrupt (TypeError "Cannot find module") s)
            | Some m =>
                match evaluate_imports (evaluate fuel') (m_requests m)
                        (set_status name Evaluating s) with
                | None => None
                | Some (Abrupt e s1) => Some (Abrupt e (set_status name (Errored e) s1))
                | Some (Normal imports s1) => Some (run_body name m imports s1)
                end
            end
        end
    end.
End loader.

(** ** The program's modules *)

Definition vue_spec : string := "vue".
Definition scroller_spec : string := "./intersection-scroller.vue".
Definition index_spec : string := "./index.js".

(** The requested modules of [index.js], in the order of its import
    declarations (lines 1-2). *)
Definition index_requests : list string := [vue_spec; scroller_spec].

(** [index.js]: its requests, and the body (lines 4-12), which receives
    the component's default export as its second import binding. *)
Definition index_module {St} `{!JsHost St} : module_def St :=
  mk_module index_requests
            (fun imports => index_body (default VUndefined (imports !! 1))).

(** The two imported modules are outside the sources: their bodies are
    parameters. *)
Definition program_modules {St} `{!JsHost St}
    (vue_body scroller_body : comp St value) (name : string)
    : option (module_def St) :=
  if decide (name = vue_spec) then Some (mk_module [] (fun _ => vue_body))
  else if decide (name = scroller_spec) then Some (mk_module [] (fun _ => scroller_body))
  else if decide (name = index_spec) then Some index_module
  else None.

(** ** Imports as steps

    One import of a specifier, with any fuel that lets it complete,
    moves the loader from one state to the next (a thrown error too: its
    effects stay). *)
Definition import_step {St} (mods : string -> option (module_def St))
    (s s' : ld_state St) : Prop :=
  exists name fuel o, evaluate mods fuel name s = Some o /\ outcome_state o = s'.

(** An import that completes is a step to the state it leaves. *)
Lemma import_step_some {St} (mods : string -> option (module_def St)) name fuel s :
  is_Some (evaluate mods fuel name s) ->
  import_step mods s (match evaluate mods fuel name s with Some o => outcome_state o | None => s end).
Proof. intros [o Ho]. exists name, fuel, o. by rewrite Ho. Qed.

(** A module is ready when it is not being evaluated and has not failed;
    a state is settled when every module is. *)
Definition ready {St} (s : ld_state St) (n : string) : Prop :=
  forall x, ld_status s !! n = Some x -> exists ns, x = Evaluated ns.

Definition settled {St} (s : ld_state St) : Prop := forall n, ready s n.

(** ** Evaluation of any module table *)

Section loader_lemmas.
  Context {St : Type}.
  Context (mods : string -> option (module_def St)).

Lemma evaluate_cached f n s ns :
    ld_status s !! n = Some (Evaluated ns) -> evaluate mods (S f) n s = Some (Normal ns s).
  Proof. intros Hs. simpl. by rewrite Hs. Qed.

Lemma evaluate_leaf f n s b :
    mods n = Some (mk_module [] (fun _ => b)) -> ld_status s !! n = None ->
    evaluate mods (S f) n s
    = Some (run_body n (mk_module [] (fun _ => b)) [] (set_status n Evaluating s)).
  Proof. intros Hm Hs. simpl. by rewrite Hs, Hm. Qed.

Lemma evaluate_two f n s m r1 r2 :
    mods n = Some m -> m_requests m = [r1; r2] -> ld_status s !! n = None ->
    evaluate mods (S f) n s =
      match evaluate mods f r1 (set_status n Evaluating s) with
      | None => None
      | Some (Abrupt e s1) => Some (Abrupt e (set_status n (Errored e) s1))
      | Some (Normal v1 s1) =>
          match evaluate mods f r2 s1 with
          | None => None
          | Some (Abrupt e s2) => Some (Abrupt e (set_status n (Errored e) s2))
          | Some (Normal v2 s2) => Some (run_body n m [v1; v2] s2)
          end
      end.
  Proof.
    intros Hm Hr Hs. simpl. rewrite Hs, Hm, Hr. simpl.
    destruct (evaluate mods f r1 _) as [[v1 s1|e s1]|]; [|done|done].
    by destruct (evaluate mods f r2 s1) as [[v2 s2|e s2]|].
  Qed.

  (** A module whose import completed normally is recorded as evaluated
      with the export it returned. *)
Lemma evaluate_normal_status f n s v s' :
    evaluate mods f n s = Some (Normal v s') -> ld_status s' !! n = Some (Evaluated v).
  Proof.
    destruct f as [|f]; [done|]. simpl.
    destruct (ld_status s !! n) as [[|ns|e]|] eqn:Hs; try by intros; simplify_eq.
    destruct (mods n) as [m|]; [|done].
    match goal with |- context [match ?g with _ => _ end = _] =>
      destruct g as [[imports s1|e s1]|] end; [|done|done].
    unfold run_body. destruct (m_body m imports (ld_rt s1)); intros; simplify_eq.
    apply lookup_insert_eq.
  Qed.

  (** A module that is not under evaluation and exists in the table: an
      import that throws leaves it [Errored] with the thrown error,
      whether the error came from the module's own body, from one of its
      imports, or was recorded before. *)
Lemma evaluate_abrupt_status f n s e s' :
    ld_status s !! n <> Some Evaluating -> is_Some (mods n) ->
    evaluate mods f n s = Some (Abrupt e s') -> ld_status s' !! n = Some (Errored e).
  Proof.
    intros Hev [m Hm]. destruct f as [|f]; [done|]. simpl.
    destruct (ld_status s !! n) as [[|ns|e']|] eqn:Hs; try by intros; simplify_eq.
    rewrite Hm.
    match goal with |- context [match ?g with _ => _ end = _] =>
      destruct g as [[imports s1|e1 s1]|] end; [|intros; simplify_eq; apply lookup_insert_eq|done].
    unfold run_body. destruct (m_body m imports (ld_rt s1)); intros; simplify_eq.
    apply lookup_insert_eq.
  Qed.

  (** A module without imports evaluated for the first time runs its body
      once on the current runtime. *)
Lemma evaluate_leaf_fresh f n s b v rt' :
    mods n = Some (mk_module [] (fun _ => b)) -> ld_status s !! n = None ->
    b (ld_rt s) = Normal v rt' ->
    evaluate mods (S f) n s = Some (Normal v (mk_ld (<[n := Evaluated v]> (ld_status s)) rt')).
  Proof.
    intros Hm Hs Hb. rewrite (evaluate_leaf _ _ _ b) by done.
    unfold run_body. simpl. rewrite Hb. by rewrite insert_insert_eq.
  Qed.

Lemma preorder_inv_on {A B} (I : B -> Prop) (g : A -> B) : PreOrder (fun x y => I (g x) -> I (g y)).
  Proof. split; [by intros ?|intros ??? H1 H2 ?; auto]. Qed.

  (** A preorder on loader states that every import of one requested
      module moves along is moved along by the whole import loop. *)
Lemma evaluate_imports_rel (R : relation (ld_state St)) `{!PreOrder R} ev reqs s o :
    (forall r s1 o1, ev r s1 = Some o1 -> R s1 (outcome_state o1)) ->
    evaluate_imports ev reqs s = Some o -> R s (outcome_state o).
  Proof.
    intros Hev. revert s o. induction reqs as [|r rs IH]; intros s o Hl; simpl in Hl.
    { simplify_eq. reflexivity. }
    destruct (ev r s) as [[v s1|e s1]|] eqn:Hr; simplify_eq; [|exact (Hev _ _ _ Hr)].
    pose proof (Hev _ _ _ Hr) as H1.
    destruct (evaluate_imports ev rs s1) as [[vs s2|e s2]|] eqn:Hrs; simplify_eq;
      (etrans; [exact H1|exact (IH _ _ Hrs)]).
  Qed.

  (** An invariant of the host state that every module body keeps, normal
      or abrupt, is kept by every import. *)
Lemma evaluate_preserves (I : St -> Prop) f n s o :
    (forall n m imports, mods n = Some m -> hoare I (m_body m imports) (fun _ => I) I) ->
    I (ld_rt s) -> evaluate mods f n s = Some o -> I (ld_rt (outcome_state o)).
  Proof.
    intros Hbodies. revert n s o. induction f as [|f IH]; intros n s o Hs Hev; [done|].
    simpl in Hev.
    destruct (ld_status s !! n) as [[|ns|e]|]; try (simplify_eq; done).
    destruct (mods n) as [m|] eqn:Hm; [|by simplify_eq].
    destruct (evaluate_imports (evaluate mods f) (m_requests m) _) as [[imports s1|e s1]|] eqn:Hl;
      simplify_eq.
    all: pose proof (@evaluate_imports_rel _ (preorder_inv_on I ld_rt) _ _ _ _
                       (fun r s1 o1 H H1 => IH r s1 o1 H1 H) Hl Hs) as H1.
    - unfold run_body. specialize (Hbodies n m imports Hm (ld_rt s1) H1).
      destruct (m_body m imports (ld_rt s1)); done.
    - done.
  Qed.

  (** The order in which imports move module statuses: a recorded status
      is never changed, and no module is left under evaluation that was
      not already. *)
Definition status_le (s s' : ld_state St) : Prop :=
    ld_status s ⊆ ld_status s'
    /\ forall m, ld_status s' !! m = Some Evaluating -> ld_status s !! m = Some Evaluating.

#[local] Instance status_le_preorder : PreOrder status_le.
  Proof.
    split; [done|]. intros x y z [Hxy Exy] [Hyz Eyz].
    split; [by etrans|]. intros m Hm. by apply Exy, Eyz.
  Qed.

  (** Marking a module [Evaluating], running its imports, then recording
      its final status moves along [status_le]. *)
Lemma status_le_finish (s s1 : ld_state St) n x rt :
    ld_status s !! n = None -> x <> Evaluating ->
    status_le (set_status n Evaluating s) s1 ->
    status_le s (mk_ld (<[n := x]> (ld_status s1)) rt).
  Proof.
    intros Hn Hx [Hsub Hev]. simpl in *. split.
    - apply insert_subseteq_r; [done|]. etrans; [apply insert_subseteq, Hn|exact Hsub].
    - intros m Hm. simpl in Hm. rewrite lookup_insert in Hm. case_decide; simplify_eq.
      specialize (Hev m Hm). simpl in Hev. by rewrite lookup_insert_ne in Hev.
  Qed.

Lemma evaluate_status_le f n s o :
    evaluate mods f n s = Some o -> status_le s (outcome_state o).
  Proof.
    revert n s o. induction f as [|f IH]; intros n s o Hev; [done|]. simpl in Hev.
    destruct (ld_status s !! n) as [[|ns|e]|] eqn:Hn; try (simplify_eq; done).
    destruct (mods n) as [m|]; [|by simplify_eq].
    destruct (evaluate_imports (evaluate mods f) (m_requests m) _) as [[imports s1|e s1]|] eqn:Hl;
      simplify_eq.
    all: pose proof (evaluate_imports_rel status_le _ _ _ _ (fun r s1 o1 H => IH r s1 o1 H) Hl) as H1.
    - unfold run_body. by destruct (m_body m imports (ld_rt s1)); apply status_le_finish.
    - by apply status_le_finish.
  Qed.
Lemma rtc_import_status_le s s' : rtc (import_step mods) s s' -> status_le s s'.
  Proof.
    induction 1 as [|x y z (n & f & o & Hev & <-) _ IH]; [done|].
    etrans; [by eapply evaluate_status_le|done].
  Qed.

End loader_lemmas.

(** ** Evaluation of the program's modules *)

Section program.
  Context {St : Type} `{!JsHost St}.
  Context (vue_body scroller_body : comp St value).
  Local Abbreviation P := (program_modules vue_body scroller_body).

Lemma program_vue : P vue_spec = Some (mk_module [] (fun _ => vue_body)).
  Proof. reflexivity. Qed.

Lemma program_scroller : P scroller_spec = Some (mk_module [] (fun _ => scroller_body)).
  Proof. reflexivity. Qed.

Lemma program_other n :
    n <> vue_spec -> n <> scroller_spec -> n <> index_spec -> P n = None.
  Proof. intros. unfold program_modules. by rewrite !decide_False. Qed.

  (** A module without imports whose body completes normally: an import
      with any positive fuel completes, records the module as evaluated,
      and either leaves the runtime alone (cached) or runs the body. *)
Lemma evaluate_leaf_ready n b f s :
    P n = Some (mk_module [] (fun _ => b)) ->
    (forall rt, exists v rt', b rt = Normal v rt') ->
    ready s n ->
    exists v s', evaluate P (S f) n s = Some (Normal v s')
      /\ ld_status s' = <[n := Evaluated v]> (ld_status s)
      /\ (ld_rt s' = ld_rt s \/ b (ld_rt s) = Normal v (ld_rt s')).
  Proof.
    intros Hm Htot Hready.
    destruct (ld_status s !! n) as [x|] eqn:Hs.
    - destruct (Hready x Hs) as [ns ->]. exists ns, s.
      rewrite (evaluate_cached _ _ _ _ ns) by done.
      split_and!; [done|by rewrite insert_id|by left].
    - destruct (Htot (ld_rt s)) as (v & rt' & Hb).
      exists v, (mk_ld (<[n := Evaluated v]> (ld_status s)) rt').
      rewrite (evaluate_leaf _ _ _ _ b) by done. unfold run_body. simpl. rewrite Hb.
      split_and!; [by rewrite insert_insert_eq|done|by right].
  Qed.

  (** C17: Error paths: once an import of one of the program's modules has
      thrown (its own body, or one of its imports), every later import of
      it, with any fuel, rethrows the same error and changes nothing: the
      body is not run again. *)
Theorem import_error_rethrown f f' n (s : ld_state St) e s' :
    ld_status s !! n <> Some Evaluating -> is_Some (P n) ->
    evaluate P f n s = Some (Abrupt e s') -> 1 <= f' ->
    evaluate P f' n s' = Some (Abrupt e s').
  Proof.
    intros Hev Hm Habr Hf. destruct f' as [|f']; [lia|]. simpl.
    by rewrite (evaluate_abrupt_status P f n s e s').
  Qed.

Lemma ready_insert_ne (s : ld_state St) n n' x : n' <> n -> ready s n ->
    ready (mk_ld (<[n' := x]> (ld_status s)) (ld_rt s)) n.
  Proof. intros Hne Hr y. simpl. rewrite lookup_insert_ne by done. apply Hr. Qed.

  (** Fuel 1 does not reach the imports of [index.js]. *)
Lemma evaluate_index_fuel_1 (s : ld_state St) :
    ld_status s !! index_spec = None -> evaluate P 1 index_spec s = None.
  Proof.
    intros Hidx. by rewrite (evaluate_two _ 0 _ _ index_module vue_spec scroller_spec).
  Qed.

Lemma settled_after_insert (s s1 : ld_state St) n v :
    settled s -> ld_status s1 = <[n := Evaluated v]> (ld_status s) -> settled s1.
  Proof.
    intros Hs Hst n' x. rewrite Hst, lookup_insert.
    case_decide; intros Hx; simplify_eq; [by eexists|by eapply Hs].
  Qed.

Lemma settled_after_index (s s' : ld_state St) v1 v2 c :
    settled s ->
    ld_status s' = <[index_spec := Evaluated c]> (<[scroller_spec := Evaluated v2]>
      (<[vue_spec := Evaluated v1]> (<[index_spec := Evaluating]> (ld_status s)))) ->
    settled s'.
  Proof.
    intros Hs Hst n x. rewrite Hst, !lookup_insert.
    repeat case_decide; intros Hx; simplify_eq; first [by eexists | congruence | by eapply Hs].
  Qed.

  (** C4: A second import of [index.js] returns the same default export and
      leaves the loader state, registry included, as it was: the body of
      lines 4-12 runs at most once. *)
Theorem import_index_again fuel fuel' (s s' : ld_state St) ns :
    evaluate P fuel index_spec s = Some (Normal ns s') -> 1 <= fuel' ->
    evaluate P fuel' index_spec s' = Some (Normal ns s').
  Proof.
    intros Hev Hf. destruct fuel' as [|f']; [lia|].
    apply evaluate_cached. by eapply evaluate_normal_status.
  Qed.

  (** An import of a specifier other than [index.js] records at most its
      own status. *)
Lemma evaluate_other_status f n (s : ld_state St) o m :
    n <> index_spec -> evaluate P f n s = Some o -> m <> n ->
    ld_status (outcome_state o) !! m = ld_status s !! m.
  Proof.
    intros Hn Hev Hm. destruct f as [|f]; [done|]. simpl in Hev.
    destruct (ld_status s !! n) as [[| |]|]; try (simplify_eq; done).
    unfold program_modules in Hev. repeat case_decide; simplify_eq/=; try done;
      unfold run_body; case_match; simpl; by rewrite !lookup_insert_ne.
  Qed.

  (** Once [index.js] is evaluated, so are the two modules it imports. *)
Definition index_deps (s : ld_state St) : Prop :=
    forall ns, ld_status s !! index_spec = Some (Evaluated ns) ->
      (exists v1, ld_status s !! vue_spec = Some (Evaluated v1))
      /\ (exists v2, ld_status s !! scroller_spec = Some (Evaluated v2)).

Lemma index_deps_step (s s' : ld_state St) : index_deps s -> import_step P s s' -> index_deps s'.
  Proof.
    intros Hd (name & f & o & Hev & <-) ns Hns.
    pose proof (evaluate_status_le P f name s o Hev) as [Hle _].
    destruct (ld_status s !! index_spec) as [x|] eqn:Hi.
    { rewrite (lookup_weaken _ _ _ _ Hi Hle) in Hns. simplify_eq.
      destruct (Hd ns Hi) as [[v1 H1] [v2 H2]]. split; eexists; by eapply lookup_weaken. }
    destruct (decide (name = index_spec)) as [->|Hn];
      [|by rewrite (evaluate_other_status f name s o index_spec), Hi in Hns].
    destruct f as [|[|f]]; [done|by rewrite evaluate_index_fuel_1 in Hev|].
    rewrite (evaluate_two _ (S f) _ _ index_module vue_spec scroller_spec) in Hev by done.
    destruct (evaluate P (S f) vue_spec _) as [[v1 s1|e s1]|] eqn:H1;
      [|simplify_eq; simpl in Hns; by rewrite lookup_insert_eq in Hns|done].
    destruct (evaluate P (S f) scroller_spec s1) as [[v2 s2|e s2]|] eqn:H2;
      [|simplify_eq; simpl in Hns; by rewrite lookup_insert_eq in Hns|done].
    pose proof (evaluate_normal_status _ _ _ _ _ _ H1) as Hv1.
    pose proof (evaluate_normal_status _ _ _ _ _ _ H2) as Hv2.
    destruct (evaluate_status_le _ _ _ _ _ H2) as [Hle2 _].
    unfold run_body in Hev. destruct (m_body _ _ _); simplify_eq; simpl in *;
      [|by rewrite lookup_insert_eq in Hns].
    split; eexists; rewrite lookup_insert_ne by done; [by eapply lookup_weaken|exact Hv2].
  Qed.

  (** With [index.js] and its imports evaluated, an import of any
      specifier changes nothing. *)
Lemma index_evaluated_step_id (s s' : ld_state St) :
    (exists ns, ld_status s !! index_spec = Some (Evaluated ns)) /\ index_deps s ->
    import_step P s s' -> s' = s.
  Proof.
    intros [[ns Hi] Hd] (name & f & o & Hev & <-).
    destruct (Hd ns Hi) as [[v1 H1] [v2 H2]].
    destruct f as [|f]; [done|]. simpl in Hev.
    destruct (ld_status s !! name) as [[|ns'|e]|] eqn:Hn; try (simplify_eq; done).
    rewrite program_other in Hev; [by simplify_eq|intros ->; congruence..].
  Qed.

  (** C24: Once [index.js] has been evaluated in a state reached by
      imports from a fresh start, on any host, no further sequence of
      imports changes anything: the module statuses and the host state
      (its component registry included) stay as they are, so nothing
      can undo or repeat the registration of lines 8-10. *)
Theorem reachable_index_frozen (st0 : St) s s' ns :
    rtc (import_step P) (mk_ld ∅ st0) s -> ld_status s !! index_spec = Some (Evaluated ns) ->
    rtc (import_step P) s s' -> s' = s.
  Proof.
    intros Hreach Hi Hs'.
    apply (rtc_inv_id _ (fun s => (exists ns, ld_status s !! index_spec = Some (Evaluated ns))
                                  /\ index_deps s) s s' index_evaluated_step_id); [|done].
    split; [by exists ns|]. apply (rtc_inv _ _ (mk_ld ∅ st0) s index_deps_step); [|exact Hreach].
    intros ns' Hns'. simpl in Hns'. by rewrite lookup_empty in Hns'.
  Qed.

  (** C27: On any host, in every loader state of the program reached by
      imports from a fresh start no module is left under evaluation,
      whatever threw, and every later import keeps every recorded status:
      an evaluated module keeps its export, a failed one its error. *)
Theorem reachable_status_stable (st0 : St) s s' :
    rtc (import_step P) (mk_ld ∅ st0) s -> rtc (import_step P) s s' ->
    (forall m, ld_status s' !! m <> Some Evaluating) /\ ld_status s ⊆ ld_status s'.
  Proof.
    intros H0 H1. split; [|apply (rtc_import_status_le P s s' H1)].
    intros m Hm. destruct (rtc_import_status_le P _ _ (transitivity H0 H1)) as [_ Hev].
    specialize (Hev m Hm). simpl in Hev. by rewrite lookup_empty in Hev.
  Qed.

  (** The host module completes normally. *)
  Hypothesis vue_total : forall rt, exists v rt', vue_body rt = Normal v rt'.

  (** C19: A component module that throws: importing [index.js] rethrows
      its error; the component module and [index.js] are recorded as
      [Errored] with it (the host module as evaluated); and the host
      state at the end is exactly the one the throwing component module
      left, after the host module's body if that one ran: the body of
      [index.js] (lines 4-12) and its registration never run. *)
Theorem index_import_error f (s : ld_state St) e :
    ready s vue_spec -> ld_status s !! scroller_spec = None -> ld_status s !! index_spec = None ->
    (forall rt, exists rt', scroller_body rt = Abrupt e rt') ->
    exists v1 rt1 s', evaluate P (S (S f)) index_spec s = Some (Abrupt e s')
      /\ ld_status s' = <[index_spec := Errored e]> (<[scroller_spec := Errored e]>
            (<[vue_spec := Evaluated v1]> (<[index_spec := Evaluating]> (ld_status s))))
      /\ (rt1 = ld_rt s \/ vue_body (ld_rt s) = Normal v1 rt1)
      /\ scroller_body rt1 = Abrupt e (ld_rt s').
  Proof.
    intros Hvue Hscr Hidx Hthrow.
    rewrite (evaluate_two _ (S f) _ _ index_module vue_spec scroller_spec) by done.
    set (s0 := set_status index_spec Evaluating s).
    destruct (evaluate_leaf_ready vue_spec vue_body f s0 program_vue vue_total)
      as (v1 & s1 & Hev1 & Hst1 & Hrt1); [by apply ready_insert_ne|].
    rewrite Hev1.
    rewrite (evaluate_leaf _ _ _ _ scroller_body) by
      (done || (rewrite Hst1; unfold s0, set_status; simpl; by rewrite !lookup_insert_ne)).
    unfold run_body. simpl. destruct (Hthrow (ld_rt s1)) as [rt' Hb]. rewrite Hb.
    exists v1, (ld_rt s1). eexists. split_and!; [done| |exact Hrt1|exact Hb].
    simpl. by rewrite insert_insert_eq, Hst1.
  Qed.
End program.
