(* ===== verification/LoaderSpec.v ===== *)
(** * Loading [index.js] on the spec's host

    The module table of [Loader] with the bodies running on [rt_state R]
    (the host of [Vue.v]): termination and the tight fuel bound of a first
    import, the invariant of every state reached by imports (once
    [index.js] is evaluated, the component module's export is the
    registered ["IntersectionScroller"]), and liveness (one more import
    of [index.js] always gets there).  Witnesses at the map registry. *)

From S2P Require Import Prelude JsObject Registry Vue Index Loader.

(** ** The program on the spec's host *)

Section spec_program.
  Context {R : Type} `{!ComponentRegistry R}.
  Context (vue_body scroller_body : comp (rt_state R) value).
  Local Abbreviation P := (program_modules vue_body scroller_body).

  (** The registration of the name ["IntersectionScroller"]. *)
Definition registered_scroller (s : ld_state (rt_state R)) : option value :=
    reg_lookup (rt_registry (ld_rt s)) "IntersectionScroller".

  (** The external modules complete normally and leave the registration
      of ["IntersectionScroller"] alone. *)
  Hypothesis vue_total : forall rt, exists v rt', vue_body rt = Normal v rt'.
  Hypothesis scroller_total : forall rt, exists v rt', scroller_body rt = Normal v rt'.
  Hypothesis vue_frame : forall rt v rt', vue_body rt = Normal v rt' ->
    reg_lookup (rt_registry rt') "IntersectionScroller" = reg_lookup (rt_registry rt) "IntersectionScroller".
  Hypothesis scroller_frame : forall rt v rt', scroller_body rt = Normal v rt' ->
    reg_lookup (rt_registry rt') "IntersectionScroller" = reg_lookup (rt_registry rt) "IntersectionScroller".

Lemma leaf_frame (b : comp (rt_state R) value) (s s' : ld_state (rt_state R)) v :
    (forall rt v rt', b rt = Normal v rt' ->
       reg_lookup (rt_registry rt') "IntersectionScroller"
       = reg_lookup (rt_registry rt) "IntersectionScroller") ->
    ld_rt s' = ld_rt s \/ b (ld_rt s) = Normal v (ld_rt s') ->
    registered_scroller s' = registered_scroller s.
  Proof. unfold registered_scroller. intros Hf [-> | Hb]; [done|]. by eapply Hf. Qed.

  (** Importing [index.js] for the first time evaluates ["vue"], then the
      component, then the body, which registers the component's export
      when it is truthy.  Two units of fuel are enough, and the runtime the
      body starts from is the one the two imported modules produced. *)
Lemma evaluate_index_fresh f (s : ld_state (rt_state R)) :
    ready s vue_spec -> ready s scroller_spec -> ld_status s !! index_spec = None ->
    exists v1 v2 c s' rt1 rt2,
      evaluate P (S (S f)) index_spec s = Some (Normal (VObj c) s')
      /\ ld_status s' = <[index_spec := Evaluated (VObj c)]> (<[scroller_spec := Evaluated v2]>
            (<[vue_spec := Evaluated v1]> (<[index_spec := Evaluating]> (ld_status s))))
      /\ (rt1 = ld_rt s \/ vue_body (ld_rt s) = Normal v1 rt1)
      /\ (rt2 = rt1 \/ scroller_body rt1 = Normal v2 rt2)
      /\ rt_registry (ld_rt s') = (if to_boolean v2
            then reg_register "IntersectionScroller" v2 (rt_registry rt2) else rt_registry rt2).
  Proof.
    intros Hvue Hscr Hidx.
    rewrite (evaluate_two _ (S f) _ _ index_module vue_spec scroller_spec) by done.
    set (s0 := set_status index_spec Evaluating s).
    destruct (evaluate_leaf_ready vue_body scroller_body vue_spec vue_body f s0 (program_vue _ _) vue_total)
      as (v1 & s1 & Hev1 & Hst1 & Hrt1); [by apply ready_insert_ne|].
    rewrite Hev1.
    destruct (evaluate_leaf_ready vue_body scroller_body scroller_spec scroller_body f s1 (program_scroller _ _) scroller_total)
      as (v2 & s2 & Hev2 & Hst2 & Hrt2).
    { intros x Hx. rewrite Hst1 in Hx. unfold s0, set_status in Hx. simpl in Hx.
      rewrite !lookup_insert_ne in Hx by done. by apply Hscr. }
    rewrite Hev2. unfold run_body. simpl. rewrite index_body_spec.
    exists v1, v2. do 2 eexists. exists (ld_rt s1), (ld_rt s2).
    split_and!; [done|rewrite Hst2, Hst1; reflexivity|done|done|done].
  Qed.

  (** From a settled state, an import of [index.js] with fuel 2 or more
      completes normally, records the export and stays settled. *)
Lemma evaluate_index_settled fuel (s : ld_state (rt_state R)) :
    settled s -> 2 <= fuel ->
    exists ns s', evaluate P fuel index_spec s = Some (Normal ns s')
      /\ ld_status s' !! index_spec = Some (Evaluated ns) /\ settled s'.
  Proof.
    intros Hs Hf. destruct fuel as [|[|f]]; [lia|lia|].
    destruct (ld_status s !! index_spec) as [x|] eqn:Hidx.
    - destruct (Hs _ x Hidx) as [ns ->]. exists ns, s.
      by rewrite (evaluate_cached _ _ _ _ ns).
    - destruct (evaluate_index_fresh f s (Hs _) (Hs _) Hidx)
        as (v1 & v2 & c & s' & rt1 & rt2 & Hev & Hst & _).
      exists (VObj c), s'. split_and!; [done| |by eapply settled_after_index].
      rewrite Hst. apply lookup_insert_eq.
  Qed.

  (** C3: Importing [index.js] from a state where no module is being evaluated
      or has failed terminates with fuel 2 or more: [index.js] ends
      evaluated with the export it returned, and the state stays settled. *)
Theorem load_index_terminates fuel (s : ld_state (rt_state R)) :
    settled s -> 2 <= fuel ->
    exists ns s', evaluate P fuel index_spec s = Some (Normal ns s')
      /\ ld_status s' !! index_spec = Some (Evaluated ns) /\ settled s'.
  Proof. apply evaluate_index_settled. Qed.

  (** The invariant of reachable loader states: no module is pending, and
      once [index.js] is evaluated, the component module is evaluated and
      its export, when truthy, is the registered ["IntersectionScroller"]. *)
Definition loader_inv (s : ld_state (rt_state R)) : Prop :=
    settled s /\ forall ns, ld_status s !! index_spec = Some (Evaluated ns) ->
      exists v2, ld_status s !! scroller_spec = Some (Evaluated v2)
        /\ (to_boolean v2 = true -> registered_scroller s = Some v2).

  (** A first import of a module without imports keeps the invariant. *)
Lemma loader_inv_leaf n b f (s o : _) :
    P n = Some (mk_module [] (fun _ => b)) ->
    (forall rt, exists v rt', b rt = Normal v rt') ->
    (forall rt v rt', b rt = Normal v rt' ->
       reg_lookup (rt_registry rt') "IntersectionScroller"
       = reg_lookup (rt_registry rt) "IntersectionScroller") ->
    n <> index_spec -> (n = scroller_spec -> ld_status s !! index_spec = None) ->
    loader_inv s -> evaluate P (S f) n s = Some o -> loader_inv (outcome_state o).
  Proof.
    intros Hm Htot Hfr Hni Hscr [Hs Hidx] Hev.
    destruct (evaluate_leaf_ready vue_body scroller_body n b f s Hm Htot (Hs _)) as (v & s1 & Hev1 & Hst & Hrt).
    rewrite Hev1 in Hev. simplify_eq. simpl. split; [by eapply settled_after_insert|].
    intros ns Hns. rewrite Hst, lookup_insert_ne in Hns by done.
    destruct (Hidx ns Hns) as (v2 & Hv2 & Hreg). exists v2.
    rewrite Hst, lookup_insert_ne; [|intros ->; by rewrite Hscr in Hns].
    split; [done|]. intros Ht. by rewrite (leaf_frame _ _ _ _ Hfr Hrt), Hreg.
  Qed.

Lemma loader_inv_step `{!ComponentRegistryLaws R} (s s' : ld_state (rt_state R)) :
    loader_inv s -> import_step P s s' -> loader_inv s'.
  Proof.
    intros [Hs Hidx] (name & fuel & o & Hev & <-).
    destruct fuel as [|f]; [done|].
    destruct (ld_status s !! name) as [x|] eqn:Hn.
    { destruct (Hs _ x Hn) as [ns ->].
      rewrite (evaluate_cached _ _ _ _ ns) in Hev by done. simplify_eq. by split. }
    destruct (decide (name = vue_spec)) as [->|Hv].
    { by apply (loader_inv_leaf _ _ f s o (program_vue _ _) vue_total vue_frame). }
    destruct (decide (name = scroller_spec)) as [->|Hsc].
    { apply (loader_inv_leaf _ _ f s o (program_scroller _ _) scroller_total scroller_frame);
        [done| |by split|done].
      intros _. destruct (ld_status s !! index_spec) as [y|] eqn:Hy; [|done].
      destruct (Hs _ y Hy) as [ns ->]. destruct (Hidx ns eq_refl) as (? & Hv2 & _). congruence. }
    destruct (decide (name = index_spec)) as [->|Hi].
    - destruct f as [|f]; [by rewrite (evaluate_index_fuel_1 vue_body scroller_body) in Hev|].
      destruct (evaluate_index_fresh f s (Hs _) (Hs _) Hn)
        as (v1 & v2 & c & s' & rt1 & rt2 & Hev1 & Hst & _ & _ & Hreg).
      rewrite Hev1 in Hev. simplify_eq. simpl. split; [by eapply settled_after_index|].
      intros ns _. exists v2. split.
      + rewrite Hst, lookup_insert_ne, lookup_insert_eq by done. done.
      + intros Ht. unfold registered_scroller. rewrite Hreg, Ht. apply reg_lookup_register_eq.
    - simpl in Hev. rewrite Hn, (program_other vue_body scroller_body) in Hev by done. simplify_eq. by split.
  Qed.

  (** The invariant holds in every state reached from a fresh start. *)
Lemma reachable_loader_inv `{!ComponentRegistryLaws R} (rt0 : rt_state R) s :
    rtc (import_step P) (mk_ld ∅ rt0) s -> loader_inv s.
  Proof.
    intros Hreach.
    assert (loader_inv (mk_ld ∅ rt0)) as Hinit.
    { split; [intros n x; simpl; by rewrite lookup_empty|intros ns'; simpl; by rewrite lookup_empty]. }
    apply (rtc_inv (import_step P) loader_inv (mk_ld ∅ rt0) s); [|done|done]. intros a b. apply loader_inv_step.
  Qed.

  (** C2: Every loader state reached from a fresh start by a sequence of
      imports of any specifiers satisfies the invariant: once [index.js]
      has been evaluated, the registry maps ["IntersectionScroller"] to the
      export of the component module (when truthy), whatever was imported
      before or after. *)
Theorem reachable_index_registered `{!ComponentRegistryLaws R} (rt0 : rt_state R) s ns :
    rtc (import_step P) (mk_ld ∅ rt0) s ->
    ld_status s !! index_spec = Some (Evaluated ns) ->
    exists v2, ld_status s !! scroller_spec = Some (Evaluated v2)
      /\ (to_boolean v2 = true -> registered_scroller s = Some v2).
  Proof.
    intros Hreach. destruct (reachable_loader_inv rt0 s Hreach) as [_ Hinv]. apply Hinv.
  Qed.

  (** C18: Liveness: from every state reached by imports, one more import
      of [index.js] reaches a state where it is evaluated and the component
      module's export (when truthy) is the registered
      ["IntersectionScroller"]: registration cannot be blocked by what was
      imported before. *)
Theorem reachable_index_eventually_registered `{!ComponentRegistryLaws R} (rt0 : rt_state R) s :
    rtc (import_step P) (mk_ld ∅ rt0) s ->
    exists s' ns v2, import_step P s s'
      /\ ld_status s' !! index_spec = Some (Evaluated ns)
      /\ ld_status s' !! scroller_spec = Some (Evaluated v2)
      /\ (to_boolean v2 = true -> registered_scroller s' = Some v2).
  Proof.
    intros Hreach. pose proof (reachable_loader_inv rt0 s Hreach) as Hinv.
    destruct (evaluate_index_settled 2 s (proj1 Hinv)) as (ns & s' & Hev & Hns & _); [lia|].
    assert (Hstep : import_step P s s') by (exists index_spec, 2, (Normal ns s'); by split).
    destruct (loader_inv_step s s' Hinv Hstep) as [_ Hinv'].
    destruct (Hinv' ns Hns) as (v2 & Hv2 & Hreg). by exists s', ns, v2.
  Qed.

End spec_program.

(** ** Witnesses, at the map registry

    A host module whose export is a string and a component module that
    allocates its options object. *)

Definition witness_vue_body : comp (rt_state (gmap string value)) value :=
  fun st => Normal (VStr "Vue") st.

Definition witness_scroller_body : comp (rt_state (gmap string value)) value :=
  fun st =>
    let '(l, h) := alloc [("name", VStr "intersection-scroller")] (rt_heap st) in
    Normal (VObj l) (mk_rt h (rt_registry st)).

Lemma witness_vue_total :
  forall rt, exists v rt', witness_vue_body rt = Normal v rt'.
Proof. intros rt. eexists _, _. reflexivity. Qed.

Lemma witness_scroller_total :
  forall rt, exists v rt', witness_scroller_body rt = Normal v rt'.
Proof. intros rt. eexists _, _. reflexivity. Qed.

Lemma witness_vue_frame : forall rt v rt', witness_vue_body rt = Normal v rt' ->
  reg_lookup (rt_registry rt') "IntersectionScroller" = reg_lookup (rt_registry rt) "IntersectionScroller".
Proof. intros rt v rt' H. unfold witness_vue_body in H. by simplify_eq. Qed.

Lemma witness_scroller_frame : forall rt v rt', witness_scroller_body rt = Normal v rt' ->
  reg_lookup (rt_registry rt') "IntersectionScroller" = reg_lookup (rt_registry rt) "IntersectionScroller".
Proof. intros rt v rt' H. unfold witness_scroller_body, alloc in H. by simplify_eq. Qed.

Definition witness_start : ld_state (rt_state (gmap string value)) := mk_ld ∅ (mk_rt ∅ ∅).

Definition witness_loaded : ld_state (rt_state (gmap string value)) :=
  match evaluate (program_modules witness_vue_body witness_scroller_body) 2 index_spec witness_start with
  | Some o => outcome_state o
  | None => witness_start
  end.

Lemma load_index_terminates_witness :
  exists ns s', evaluate (program_modules witness_vue_body witness_scroller_body) 2 index_spec
                  witness_start = Some (Normal ns s')
    /\ ld_status s' !! index_spec = Some (Evaluated ns) /\ settled s'.
Proof.
  apply (load_index_terminates _ _ witness_vue_total witness_scroller_total 2 witness_start).
  - intros n x Hx. simpl in Hx. by rewrite lookup_empty in Hx.
  - lia.
Defined.

Lemma import_index_again_witness :
  evaluate (program_modules witness_vue_body witness_scroller_body) 1 index_spec witness_loaded
  = Some (Normal (VObj 2) witness_loaded).
Proof.
  apply (import_index_again witness_vue_body witness_scroller_body 2 1 witness_start).
  - vm_compute. reflexivity.
  - lia.
Defined.

Lemma reachable_index_registered_witness :
  exists v2, ld_status witness_loaded !! scroller_spec = Some (Evaluated v2)
    /\ (to_boolean v2 = true -> registered_scroller witness_loaded = Some v2).
Proof.
  apply (reachable_index_registered witness_vue_body witness_scroller_body
           witness_vue_total witness_scroller_total witness_vue_frame witness_scroller_frame
           (mk_rt ∅ ∅) witness_loaded (VObj 2)).
  - apply rtc_once, (import_step_some _ index_spec 2). apply (bool_decide_unpack _). vm_compute. reflexivity.
  - vm_compute. reflexivity.
Defined.

(** A component module whose body throws, as a missing render function
    would at module evaluation. *)
Definition witness_throwing_body : comp (rt_state (gmap string value)) value :=
  fun st => Abrupt (TypeError "render is not a function") st.

Definition witness_failed : ld_state (rt_state (gmap string value)) :=
  match evaluate (program_modules witness_vue_body witness_throwing_body) 2 index_spec witness_start with
  | Some o => outcome_state o
  | None => witness_start
  end.

Lemma import_error_rethrown_witness :
  evaluate (program_modules witness_vue_body witness_throwing_body) 1 index_spec witness_failed
  = Some (Abrupt (TypeError "render is not a function") witness_failed).
Proof.
  apply (import_error_rethrown witness_vue_body witness_throwing_body 2 1 index_spec witness_start).
  - vm_compute. discriminate.
  - by eexists.
  - vm_compute. reflexivity.
  - lia.
Defined.

Lemma index_import_error_witness :
  exists v1 rt1 s', evaluate (program_modules witness_vue_body witness_throwing_body) 2 index_spec
                      witness_start = Some (Abrupt (TypeError "render is not a function") s')
    /\ ld_status s' = <[index_spec := Errored (TypeError "render is not a function")]>
         (<[scroller_spec := Errored (TypeError "render is not a function")]>
           (<[vue_spec := Evaluated v1]> (<[index_spec := Evaluating]> (ld_status witness_start))))
    /\ (rt1 = ld_rt witness_start \/ witness_vue_body (ld_rt witness_start) = Normal v1 rt1)
    /\ witness_throwing_body rt1 = Abrupt (TypeError "render is not a function") (ld_rt s').
Proof.
  apply (index_import_error witness_vue_body witness_throwing_body witness_vue_total 0 witness_start).
  - intros x Hx. vm_compute in Hx. discriminate.
  - reflexivity.
  - reflexivity.
  - intros rt. by eexists.
Defined.

Lemma reachable_index_eventually_registered_witness :
  exists s' ns v2, import_step (program_modules witness_vue_body witness_scroller_body) witness_start s'
    /\ ld_status s' !! index_spec = Some (Evaluated ns)
    /\ ld_status s' !! scroller_spec = Some (Evaluated v2)
    /\ (to_boolean v2 = true -> registered_scroller s' = Some v2).
Proof.
  apply (reachable_index_eventually_registered witness_vue_body witness_scroller_body
           witness_vue_total witness_scroller_total witness_vue_frame witness_scroller_frame
           (mk_rt ∅ ∅) witness_start).
  apply rtc_refl.
Defined.

(** After [index.js] is loaded, an import of the component module. *)
Definition witness_reimported : ld_state (rt_state (gmap string value)) :=
  match evaluate (program_modules witness_vue_body witness_scroller_body) 2 scroller_spec
          witness_loaded with
  | Some o => outcome_state o
  | None => witness_start
  end.

Lemma reachable_index_frozen_witness : witness_reimported = witness_loaded.
Proof.
  apply (reachable_index_frozen witness_vue_body witness_scroller_body (mk_rt ∅ ∅)
           witness_loaded witness_reimported (VObj 2)).
  - apply rtc_once, (import_step_some _ index_spec 2). apply (bool_decide_unpack _). vm_compute. reflexivity.
  - vm_compute. reflexivity.
  - apply rtc_once, (import_step_some _ scroller_spec 2). apply (bool_decide_unpack _). vm_compute. reflexivity.
Defined.

Lemma reachable_status_stable_witness :
  (forall m, ld_status witness_reimported !! m <> Some Evaluating)
  /\ ld_status witness_loaded ⊆ ld_status witness_reimported.
Proof.
  apply (reachable_status_stable witness_vue_body witness_scroller_body
           (mk_rt ∅ ∅) witness_loaded witness_reimported).
  - apply rtc_once, (import_step_some _ index_spec 2). apply (bool_decide_unpack _). vm_compute. reflexivity.
  - apply rtc_once, (import_step_some _ scroller_spec 2). apply (bool_decide_unpack _). vm_compute. reflexivity.
Defined.
