(* ===== verification/LoaderV2.v ===== *)
(** * Loading [index.js] on Vue 2

    The module table of [Loader] with the bodies running on [v2_state]:
    the first import registers a constructor made by [Vue.extend], no
    sequence of imports registers a plain options object, and from every
    reachable state one more import of [index.js] registers a
    constructor made from the component module's export (liveness, by
    the invariant [v2_loader_inv]).  Witnesses with a host module and a
    component module of our own. *)

From S2P Require Import Prelude JsObject Registry Vue Index Vue2 Vue2Inv Vue2Index Loader.

(** ** The program on Vue 2

    The same module table with [import Vue from "vue"] bound to Vue 2:
    the host module completes normally, and the component module returns
    a fresh plain options object without a constructor cache, which is
    what a compiled single-file component exports. *)

(** The host module only allocates: it keeps every allocated object,
    whether it is a function object, and the registry. *)
Definition v2_extends (st st' : v2_state) : Prop :=
  v2_components st' = v2_components st
  /\ forall l o, v2_heap st !! l = Some o ->
       v2_heap st' !! l = Some o /\ (l ∈ v2_functions st' <-> l ∈ v2_functions st).

(** A plain options object that [Vue.extend] has not seen yet. *)
Definition fresh_options (st : v2_state) (v : value) : Prop :=
  exists o oo, v = VObj o /\ v2_heap st !! o = Some oo /\ (o ∉ v2_functions st)
    /\ get_own oo "_Ctor" = None.

(** ["IntersectionScroller"] is registered as a constructor whose
    [extendOptions] is the object at [o]. *)
Definition registered_ctor (st : v2_state) (o : positive) : Prop :=
  exists fc cid, v2_components st !! "IntersectionScroller" = Some (VObj fc)
    /\ fc ∈ v2_functions st
    /\ v2_heap st !! fc = Some [("cid", VNum cid); ("extendOptions", VObj o)].

Lemma fresh_options_extends st st' v :
  v2_extends st st' -> fresh_options st v -> fresh_options st' v.
Proof.
  intros [_ Hh] (o & oo & -> & Ho & Hf & Hc). destruct (Hh o oo Ho) as [Ho' Hf'].
  exists o, oo. split_and!; [done|done| |done]. by rewrite Hf'.
Qed.

Lemma registered_ctor_options st o :
  registered_ctor st o -> registered_options st "IntersectionScroller" = Some (VObj o).
Proof. intros (fc & cid & Hc & _ & Hh). unfold registered_options. by rewrite Hc, Hh. Qed.

(** The body of [index.js] run by the loader on a fresh options object:
    it completes normally, [index.js] is recorded as evaluated, and the
    registry maps ["IntersectionScroller"] to a new constructor made from
    the options object. *)
Lemma run_index_body_v2 v1 o (s2 : ld_state v2_state) :
  fresh_options (ld_rt s2) (VObj o) ->
  exists lc fc rt', run_body index_spec index_module [v1; VObj o] s2
      = Normal (VObj lc) (mk_ld (<[index_spec := Evaluated (VObj lc)]> (ld_status s2)) rt')
    /\ v2_components rt' !! "IntersectionScroller" = Some (VObj fc)
    /\ fc <> o /\ fc ∈ v2_functions rt'
    /\ exists cid, v2_heap rt' !! fc = Some [("cid", VNum cid); ("extendOptions", VObj o)].
Proof.
  intros (o' & oo & Heq & Ho & Hpl & Hc). simplify_eq. unfold run_body. simpl.
  destruct (ld_rt s2) as [h fs cs cid dev ws]. simpl in *.
  change (index_body (VObj o') (mk_v2 h fs cs cid dev ws))
    with (index_body_v2 (VObj o') (mk_v2 h fs cs cid dev ws)).
  rewrite (index_body_v2_run h fs cs cid dev ws o' oo) by done.
  destruct (index_v2_locs h o' oo Ho) as (_ & _ & _ & Hso & _ & _ & _).
  destruct (index_v2_heap h cid o' oo Ho) as (_ & _ & _ & Hsub).
  do 3 eexists. split_and!; [done|apply lookup_insert_eq|done|set_solver|].
  eexists. exact Hsub.
Qed.

Section v2_program.
  Context (vue_body scroller_body : comp v2_state value).
  Local Abbreviation P := (program_modules vue_body scroller_body).

  Hypothesis vue_total_v2 : forall st, exists v st', vue_body st = Normal v st'.
  Hypothesis scroller_options : forall st, exists o oo st',
    scroller_body st = Normal (VObj o) st' /\ v2_heap st' !! o = Some oo
    /\ (o ∉ v2_functions st') /\ get_own oo "_Ctor" = None.

  (** The component module is not yet evaluated, or its export is an
      options object that [Vue.extend] has not seen. *)
Definition scroller_ok (s : ld_state v2_state) : Prop :=
    ld_status s !! scroller_spec = None
    \/ exists v, ld_status s !! scroller_spec = Some (Evaluated v) /\ fresh_options (ld_rt s) v.

Lemma evaluate_scroller_v2 f (s : ld_state v2_state) :
    scroller_ok s ->
    exists o s', evaluate P (S f) scroller_spec s = Some (Normal (VObj o) s')
      /\ ld_status s' = <[scroller_spec := Evaluated (VObj o)]> (ld_status s)
      /\ fresh_options (ld_rt s') (VObj o).
  Proof.
    intros [Hn | (v & Hv & (o & oo & -> & Hfr))].
    - destruct (scroller_options (ld_rt s)) as (o & oo & rt' & Hb & Hfr).
      exists o, (mk_ld (<[scroller_spec := Evaluated (VObj o)]> (ld_status s)) rt').
      rewrite (evaluate_leaf_fresh _ f scroller_spec s scroller_body (VObj o) rt') by done.
      split_and!; [done|done|]. exists o, oo. by split.
    - exists o, s. rewrite (evaluate_cached _ _ _ _ (VObj o)) by done.
      split_and!; [done|by rewrite insert_id|]. exists o, oo. by split.
  Qed.

  (** C21: Loading [index.js] on Vue 2, with the component module not yet
      evaluated: two units of fuel suffice, [index.js] and the component
      module end evaluated, and the registry maps ["IntersectionScroller"]
      to a new constructor made by [Vue.extend] from the component
      module's export, not to the export itself. *)
Theorem load_index_v2 (s : ld_state v2_state) :
    ready s vue_spec -> ld_status s !! scroller_spec = None -> ld_status s !! index_spec = None ->
    exists lc o f s', evaluate P 2 index_spec s = Some (Normal (VObj lc) s')
      /\ ld_status s' !! index_spec = Some (Evaluated (VObj lc))
      /\ ld_status s' !! scroller_spec = Some (Evaluated (VObj o))
      /\ v2_components (ld_rt s') !! "IntersectionScroller" = Some (VObj f)
      /\ f <> o /\ f ∈ v2_functions (ld_rt s')
      /\ exists cid, v2_heap (ld_rt s') !! f = Some [("cid", VNum cid); ("extendOptions", VObj o)].
  Proof.
    intros Hvue Hscr Hidx.
    rewrite (evaluate_two _ 1 _ _ index_module vue_spec scroller_spec) by done.
    set (s0 := set_status index_spec Evaluating s).
    destruct (evaluate_leaf_ready vue_body scroller_body vue_spec vue_body 0 s0 (program_vue _ _)
                vue_total_v2) as (v1 & s1 & Hev1 & Hst1 & _); [by apply ready_insert_ne|].
    rewrite Hev1.
    destruct (evaluate_scroller_v2 0 s1) as (o & s2 & Hev2 & Hst2 & Hfr).
    { left. rewrite Hst1. unfold s0, set_status. simpl. by rewrite !lookup_insert_ne. }
    rewrite Hev2.
    destruct (run_index_body_v2 v1 o s2 Hfr) as (lc & fc & rt' & -> & Hc & Hne & Hf & Hh).
    exists lc, o, fc. eexists. split_and!; [done|apply lookup_insert_eq| |done..]. simpl.
    rewrite lookup_insert_ne, Hst2 by done. apply lookup_insert_eq.
  Qed.


  (** The host module only allocates. *)
  Hypothesis vue_extends : forall st v st', vue_body st = Normal v st' -> v2_extends st st'.

  (** A first import of [index.js] on Vue 2 with enough fuel: the host
      module is evaluated if it was not, the component module too (or its
      cached export is still a fresh options object), and the body
      registers a new constructor made from that export. *)
Lemma evaluate_index_v2 f (s : ld_state v2_state) :
    ready s vue_spec -> scroller_ok s -> ld_status s !! index_spec = None ->
    exists v1 lc o fc s', evaluate P (S (S f)) index_spec s = Some (Normal (VObj lc) s')
      /\ ld_status s' = <[index_spec := Evaluated (VObj lc)]> (<[scroller_spec := Evaluated (VObj o)]>
            (<[vue_spec := Evaluated v1]> (<[index_spec := Evaluating]> (ld_status s))))
      /\ v2_components (ld_rt s') !! "IntersectionScroller" = Some (VObj fc)
      /\ fc <> o /\ fc ∈ v2_functions (ld_rt s')
      /\ exists cid, v2_heap (ld_rt s') !! fc = Some [("cid", VNum cid); ("extendOptions", VObj o)].
  Proof.
    intros Hvue Hscr Hidx.
    rewrite (evaluate_two _ (S f) _ _ index_module vue_spec scroller_spec) by done.
    set (s0 := set_status index_spec Evaluating s).
    destruct (evaluate_leaf_ready vue_body scroller_body vue_spec vue_body f s0 (program_vue _ _)
                vue_total_v2) as (v1 & s1 & Hev1 & Hst1 & Hrt1); [by apply ready_insert_ne|].
    rewrite Hev1.
    destruct (evaluate_scroller_v2 f s1) as (o & s2 & Hev2 & Hst2 & Hfr).
    { unfold scroller_ok. rewrite Hst1. unfold s0, set_status. simpl.
      rewrite !lookup_insert_ne by done.
      destruct Hscr as [Hn|(v & Hv & Hfr)]; [by left|right]. exists v. split; [done|].
      destruct Hrt1 as [-> | Hb]; [done|]. by eapply fresh_options_extends; [apply (vue_extends _ _ _ Hb)|]. }
    rewrite Hev2.
    destruct (run_index_body_v2 v1 o s2 Hfr) as (lc & fc & rt' & -> & Hc & Hne & Hf & Hh).
    do 5 eexists. split_and!; [done| |done..]. simpl. by rewrite Hst2, Hst1.
  Qed.

  (** The invariant of the loader states reached on Vue 2: no module is
      pending or failed; [index.js] is evaluated only with its imports;
      before it is, an evaluated component module's export is still a
      fresh options object; after, ["IntersectionScroller"] is registered
      as a constructor made from that export. *)
Definition v2_loader_inv (s : ld_state v2_state) : Prop :=
    settled s /\ index_deps s
    /\ (forall v, ld_status s !! index_spec = None ->
          ld_status s !! scroller_spec = Some (Evaluated v) -> fresh_options (ld_rt s) v)
    /\ (forall ns, ld_status s !! index_spec = Some (Evaluated ns) ->
          exists o, ld_status s !! scroller_spec = Some (Evaluated (VObj o))
            /\ registered_ctor (ld_rt s) o).

Lemma v2_loader_inv_init st0 : v2_loader_inv (mk_ld ∅ st0).
  Proof.
    split_and!; [intros n x|intros ns|intros v _|intros ns]; simpl; rewrite lookup_empty; congruence.
  Qed.

Lemma v2_loader_inv_scroller_ok s :
    v2_loader_inv s -> ld_status s !! index_spec = None -> scroller_ok s.
  Proof.
    intros (Hs & _ & Hk & _) Hi. destruct (ld_status s !! scroller_spec) as [x|] eqn:Hx; [right|by left].
    destruct (Hs _ x Hx) as [v ->]. exists v. split; [done|]. by apply Hk.
  Qed.

Lemma v2_loader_inv_step s s' : v2_loader_inv s -> import_step P s s' -> v2_loader_inv s'.
  Proof.
    intros Hinv Hstep. pose proof Hinv as (Hs & Hd & Hk & Hj).
    pose proof (index_deps_step vue_body scroller_body s s' Hd Hstep) as Hd'.
    destruct (ld_status s !! index_spec) as [x|] eqn:Hi.
    { destruct (Hs _ x Hi) as [ns ->].
      by rewrite (index_evaluated_step_id vue_body scroller_body s s' (conj (ex_intro _ ns Hi) Hd) Hstep). }
    destruct Hstep as (name & f & o & Hev & <-). destruct f as [|f]; [done|].
    destruct (decide (name = index_spec)) as [->|Hni]; [|destruct (decide (name = scroller_spec)) as [->|Hnsc]].
    - destruct f as [|f]; [by rewrite (evaluate_index_fuel_1 vue_body scroller_body) in Hev|].
      destruct (evaluate_index_v2 f s (Hs _) (v2_loader_inv_scroller_ok s Hinv Hi) Hi)
        as (v1 & lc & o' & fc & s' & Hev' & Hst & Hc & _ & Hf & cid & Hh).
      rewrite Hev' in Hev. simplify_eq. simpl in *. split_and!; [by eapply settled_after_index|done| |].
      + intros v. by rewrite Hst, lookup_insert_eq.
      + intros ns _. exists o'. split; [|by exists fc, cid].
        by rewrite Hst, lookup_insert_ne, lookup_insert_eq.
    - destruct (evaluate_scroller_v2 f s (v2_loader_inv_scroller_ok s Hinv Hi)) as (o' & s1 & Hev1 & Hst & Hfr).
      rewrite Hev1 in Hev. simplify_eq. simpl in *. split_and!; [by eapply settled_after_insert|done| |].
      + intros v _ Hv. rewrite Hst, lookup_insert_eq in Hv. by simplify_eq.
      + intros ns Hns. by rewrite Hst, lookup_insert_ne, Hi in Hns.
    - destruct (decide (name = vue_spec)) as [->|Hnv].
      + destruct (evaluate_leaf_ready vue_body scroller_body vue_spec vue_body f s (program_vue _ _)
                    vue_total_v2 (Hs _)) as (v1 & s1 & Hev1 & Hst & Hrt).
        rewrite Hev1 in Hev. simplify_eq. simpl in *. split_and!; [by eapply settled_after_insert|done| |].
        * intros v Hi' Hv. rewrite Hst, lookup_insert_ne in Hv by done.
          destruct Hrt as [-> | Hb]; [by apply Hk|].
          eapply fresh_options_extends; [apply (vue_extends _ _ _ Hb)|by apply Hk].
        * intros ns Hns. by rewrite Hst, lookup_insert_ne, Hi in Hns.
      + simpl in Hev. destruct (ld_status s !! name) as [[| |]|]; simplify_eq; try exact Hinv.
        rewrite (program_other vue_body scroller_body) in Hev by done. simplify_eq. exact Hinv.
  Qed.

  (** C25: Liveness on Vue 2: from every loader state reached by imports
      from a fresh start, one more import of [index.js] reaches a state
      where [index.js] and the component module are evaluated and
      ["IntersectionScroller"] is registered as a constructor (a function
      object) whose [extendOptions] is the component module's export: no
      earlier import, of the host module, the component or [index.js]
      itself, can keep Vue 2 from registering the component. *)
Theorem reachable_v2_eventually_registered (st0 : v2_state) s :
    rtc (import_step P) (mk_ld ∅ st0) s ->
    exists s' ns o fc, import_step P s s'
      /\ ld_status s' !! index_spec = Some (Evaluated ns)
      /\ ld_status s' !! scroller_spec = Some (Evaluated (VObj o))
      /\ v2_components (ld_rt s') !! "IntersectionScroller" = Some (VObj fc)
      /\ fc ∈ v2_functions (ld_rt s')
      /\ registered_options (ld_rt s') "IntersectionScroller" = Some (VObj o).
  Proof.
    intros Hreach.
    assert (Hinv : v2_loader_inv s).
    { apply (rtc_inv _ _ (mk_ld ∅ st0) s v2_loader_inv_step); [apply v2_loader_inv_init|done]. }
    assert (Hnext : exists s' ns, import_step P s s' /\ ld_status s' !! index_spec = Some (Evaluated ns)).
    { destruct (ld_status s !! index_spec) as [x|] eqn:Hi.
      - destruct (proj1 Hinv _ x Hi) as [ns ->]. exists s, ns. split; [|done].
        exists index_spec, 2, (Normal ns s). split; [by apply evaluate_cached|done].
      - destruct (evaluate_index_v2 0 s (proj1 Hinv _) (v2_loader_inv_scroller_ok s Hinv Hi) Hi)
          as (v1 & lc & o & fc & s' & Hev & Hst & _).
        exists s', (VObj lc). split; [by exists index_spec, 2, (Normal (VObj lc) s')|].
        rewrite Hst. apply lookup_insert_eq. }
    destruct Hnext as (s' & ns & Hstep & Hns).
    destruct (v2_loader_inv_step s s' Hinv Hstep) as (_ & _ & _ & Hj).
    destruct (Hj ns Hns) as (o & Ho & fc & cid & Hc & Hf & Hh).
    exists s', ns, o, fc. split_and!; try done. apply registered_ctor_options. by exists fc, cid.
  Qed.

End v2_program.

(** ** Witnesses on Vue 2

    A host module whose export is a string, and a component module that
    allocates its options object at a location neither allocated nor
    marked as a function. *)

Definition v2_witness_vue_body : comp v2_state value := fun st => Normal (VStr "Vue") st.

Definition v2_witness_scroller_body : comp v2_state value :=
  fun st =>
    let l := fresh (dom (v2_heap st) ∪ v2_functions st) in
    Normal (VObj l) (set_heap (<[l := [("render", VNull)]]> (v2_heap st)) st).

Lemma v2_witness_vue_total : forall st, exists v st', v2_witness_vue_body st = Normal v st'.
Proof. intros st. by do 2 eexists. Qed.

Lemma v2_witness_scroller_options : forall st, exists o oo st',
  v2_witness_scroller_body st = Normal (VObj o) st' /\ v2_heap st' !! o = Some oo
  /\ (o ∉ v2_functions st') /\ get_own oo "_Ctor" = None.
Proof.
  intros st. do 3 eexists. split_and!; [reflexivity|apply lookup_insert_eq| |reflexivity].
  simpl. pose proof (is_fresh (dom (v2_heap st) ∪ v2_functions st)). set_solver.
Qed.



Definition v2_witness_start : ld_state v2_state := mk_ld ∅ (mk_v2 ∅ ∅ ∅ 1 true []).


Lemma load_index_v2_witness :
  exists lc o f s',
    evaluate (program_modules v2_witness_vue_body v2_witness_scroller_body) 2 index_spec
      v2_witness_start = Some (Normal (VObj lc) s')
    /\ ld_status s' !! index_spec = Some (Evaluated (VObj lc))
    /\ ld_status s' !! scroller_spec = Some (Evaluated (VObj o))
    /\ v2_components (ld_rt s') !! "IntersectionScroller" = Some (VObj f)
    /\ f <> o /\ f ∈ v2_functions (ld_rt s')
    /\ exists cid, v2_heap (ld_rt s') !! f = Some [("cid", VNum cid); ("extendOptions", VObj o)].
Proof.
  apply (load_index_v2 _ _ v2_witness_vue_total v2_witness_scroller_options v2_witness_start).
  - intros x Hx. simpl in Hx. by rewrite lookup_empty in Hx.
  - reflexivity.
  - reflexivity.
Defined.



Lemma v2_witness_vue_extends :
  forall st v st', v2_witness_vue_body st = Normal v st' -> v2_extends st st'.
Proof. intros st v st' H. unfold v2_witness_vue_body in H. simplify_eq. by split. Qed.

Lemma reachable_v2_eventually_registered_witness :
  exists s' ns o fc,
    import_step (program_modules v2_witness_vue_body v2_witness_scroller_body) v2_witness_start s'
    /\ ld_status s' !! index_spec = Some (Evaluated ns)
    /\ ld_status s' !! scroller_spec = Some (Evaluated (VObj o))
    /\ v2_components (ld_rt s') !! "IntersectionScroller" = Some (VObj fc)
    /\ fc ∈ v2_functions (ld_rt s')
    /\ registered_options (ld_rt s') "IntersectionScroller" = Some (VObj o).
Proof.
  apply (reachable_v2_eventually_registered _ _ v2_witness_vue_total v2_witness_scroller_options
           v2_witness_vue_extends (ld_rt v2_witness_start) v2_witness_start).
  apply rtc_refl.
Defined.
